(** * Stock analysis front end: rating and classification helpers

    A shallow embedding of the decision logic of the stock-analysis
    dashboard (TypeScript, [frontend/src/components/sections]):
    the quality raters of the comparison view, the single-stock
    health check, the trend badges, the 52-week range marker and the
    composite performance index.

    Numbers.  A JavaScript [number] is modelled by [JS.number]: the
    three IEEE special values and the finite values, the latter as exact
    rationals.  Every finite double is a rational and the comparisons
    of the source ([<], [<=], [>=], [>]) are exactly the ones on rationals;
    arithmetic on finite values is exact here (rounding to the nearest
    double and overflow are outside the model, and the two zeros are not
    told apart).

    Strings are sequences of ASCII characters. *)

From Stdlib Require Import QArith Qround ZArith List String Ascii Bool Lia Lqa.
From Stdlib Require Import DecimalString Sorted Permutation OrderedTypeEx Qabs.
Import ListNotations.

Local Open Scope string_scope.

(* ================================================================== *)
(** * JavaScript numbers and values *)
(* ================================================================== *)

Module JS.

Inductive number : Type :=
| NaN
| NegInf
| Fin (q : Q)
| PosInf.

Definition Qltb (x y : Q) : bool := negb (Qle_bool y x).

(** [a < b], [a <= b], [a > b], [a >= b]: false as soon as an operand
    is NaN. *)
Definition lt (a b : number) : bool :=
  match a, b with
  | NaN, _ | _, NaN => false
  | _, NegInf => false
  | NegInf, _ => true
  | PosInf, _ => false
  | Fin _, PosInf => true
  | Fin x, Fin y => Qltb x y
  end.

Definition le (a b : number) : bool :=
  match a, b with
  | NaN, _ | _, NaN => false
  | NegInf, _ => true
  | _, PosInf => true
  | _, NegInf => false
  | PosInf, _ => false
  | Fin x, Fin y => Qle_bool x y
  end.

Definition gt (a b : number) : bool := lt b a.
Definition ge (a b : number) : bool := le b a.

Definition isNaN (a : number) : bool :=
  match a with NaN => true | _ => false end.

(** The infinity (or NaN) that a product or quotient with an infinite
    or zero operand yields, from the sign of the other operand. *)
Definition inf_of_sign (c : comparison) : number :=
  match c with Lt => NegInf | Eq => NaN | Gt => PosInf end.

Definition neg (a : number) : number :=
  match a with
  | NaN => NaN
  | NegInf => PosInf
  | PosInf => NegInf
  | Fin q => Fin (- q)%Q
  end.

Definition add (a b : number) : number :=
  match a, b with
  | NaN, _ | _, NaN => NaN
  | PosInf, NegInf | NegInf, PosInf => NaN
  | PosInf, _ | _, PosInf => PosInf
  | NegInf, _ | _, NegInf => NegInf
  | Fin x, Fin y => Fin (x + y)%Q
  end.

Definition sub (a b : number) : number := add a (neg b).

Definition mul (a b : number) : number :=
  match a, b with
  | NaN, _ | _, NaN => NaN
  | Fin x, Fin y => Fin (x * y)%Q
  | Fin x, PosInf | PosInf, Fin x => inf_of_sign (x ?= 0)%Q
  | Fin x, NegInf | NegInf, Fin x => inf_of_sign (0 ?= x)%Q
  | PosInf, PosInf | NegInf, NegInf => PosInf
  | PosInf, NegInf | NegInf, PosInf => NegInf
  end.

Definition div (a b : number) : number :=
  match a, b with
  | NaN, _ | _, NaN => NaN
  | Fin x, Fin y =>
      if Qeq_bool y 0 then inf_of_sign (x ?= 0)%Q else Fin (x / y)%Q
  | Fin _, (PosInf | NegInf) => Fin 0
  | PosInf, Fin y => if Qltb y 0 then NegInf else PosInf
  | NegInf, Fin y => if Qltb y 0 then PosInf else NegInf
  | _, _ => NaN
  end.

(** [Math.min(a, b)] and [Math.max(a, b)]. *)
Definition Math_min (a b : number) : number :=
  match a, b with
  | NaN, _ | _, NaN => NaN
  | _, _ => if le a b then a else b
  end.

Definition Math_max (a b : number) : number :=
  match a, b with
  | NaN, _ | _, NaN => NaN
  | _, _ => if le a b then b else a
  end.

(** [Math.min(...xs)] and [Math.max(...xs)]. *)
Definition Math_min_list (xs : list number) : number :=
  fold_right Math_min PosInf xs.

Definition Math_max_list (xs : list number) : number :=
  fold_right Math_max NegInf xs.

(** [Math.round]: the nearest integer, halves towards +infinity. *)
Definition Math_round (a : number) : number :=
  match a with
  | Fin q => Fin (inject_Z (Qfloor (q + (1 # 2))%Q))
  | _ => a
  end.

(** Truthiness of a number, as [||] tests it: 0 and NaN are falsy. *)
Definition truthy (a : number) : bool :=
  match a with
  | NaN => false
  | Fin q => negb (Qeq_bool q 0)
  | _ => true
  end.

(** [a || b] on numbers. *)
Definition or_else (a b : number) : number := if truthy a then a else b.

(** An integer counter used as a number. *)
Definition of_nat (n : nat) : number := Fin (inject_Z (Z.of_nat n)).

(** A value of type [number | string | null]. *)
Inductive value : Type :=
| VNull
| VNum (n : number)
| VStr (s : string).

(** [x ?? d] on a nullable. *)
Definition nullish {A : Type} (x : option A) (d : A) : A :=
  match x with Some a => a | None => d end.

(** [x != null && p x]. *)
Definition notnull_and {A : Type} (x : option A) (p : A -> bool) : bool :=
  match x with Some a => p a | None => false end.

Definition is_null {A : Type} (x : option A) : bool :=
  match x with Some _ => false | None => true end.

(** Finite numbers: what a JSON document can carry. *)
Definition finite (a : number) : Prop :=
  match a with Fin _ => True | _ => False end.

(** [lo <= a <= hi] for a finite [a]. *)
Definition between (lo hi : Q) (a : number) : Prop :=
  match a with Fin q => (lo <= q <= hi)%Q | _ => False end.

(** Two finite numbers of the same value. *)
Definition same_number (x y : number) : Prop :=
  match x, y with
  | Fin p, Fin q => (p == q)%Q
  | _, _ => False
  end.

(** A nullable JSON number. *)
Definition json_number (x : option number) : Prop :=
  match x with Some n => finite n | None => True end.

(** A nullable number that, when present, lies in [lo, hi]. *)
Definition between_or_null (lo hi : Q) (x : option number) : Prop :=
  match x with Some n => between lo hi n | None => True end.

End JS.

Declare Scope js_scope.
Delimit Scope js_scope with js.
Bind Scope js_scope with JS.number.
Notation "a <? b" := (JS.lt a b) : js_scope.
Notation "a <=? b" := (JS.le a b) : js_scope.
Notation "a >? b" := (JS.gt a b) (at level 70) : js_scope.
Notation "a >=? b" := (JS.ge a b) (at level 70) : js_scope.
Notation "a + b" := (JS.add a b) : js_scope.
Notation "a - b" := (JS.sub a b) : js_scope.
Notation "a * b" := (JS.mul a b) : js_scope.
Notation "a / b" := (JS.div a b) : js_scope.
Notation "x ?? d" := (JS.nullish x d) (at level 45, left associativity).

Import JS.
Local Open Scope js_scope.

(* ================================================================== *)
(** * Strings: [toLowerCase] and [includes] *)
(* ================================================================== *)

Module Str.

Definition is_upper (c : ascii) : bool :=
  (65 <=? nat_of_ascii c)%nat && (nat_of_ascii c <=? 90)%nat.

Definition lower_char (c : ascii) : ascii :=
  if is_upper c then ascii_of_nat (nat_of_ascii c + 32) else c.

(** [s.toLowerCase()]. *)
Fixpoint toLowerCase (s : string) : string :=
  match s with
  | EmptyString => EmptyString
  | String c s' => String (lower_char c) (toLowerCase s')
  end.

(** [s.includes(sub)]: [sub] occurs in [s] as a contiguous substring. *)
Fixpoint includes (s sub : string) : bool :=
  if String.prefix sub s then true
  else match s with
       | EmptyString => false
       | String _ s' => includes s' sub
       end.

Definition is_lower (c : ascii) : bool :=
  (97 <=? nat_of_ascii c)%nat && (nat_of_ascii c <=? 122)%nat.

Definition upper_char (c : ascii) : ascii :=
  if is_lower c then ascii_of_nat (nat_of_ascii c - 32) else c.

(** [d] is [c] itself, or [c] put in lower or in upper case; two
    strings are letter-casing variants of each other when they have
    the same length and, position by position, such characters. *)
Definition same_letter (c d : ascii) : Prop :=
  d = c \/ d = lower_char c \/ d = upper_char c.

Inductive casing_variant : string -> string -> Prop :=
| cv_nil : casing_variant EmptyString EmptyString
| cv_cons c d s t :
    same_letter c d -> casing_variant s t ->
    casing_variant (String c s) (String d t).

End Str.

(* ================================================================== *)
(** * Arrays: [sort], first and last element *)
(* ================================================================== *)

Module Arr.

Section Sort.

Context {A : Type}.

(** The comparator handed to [Array.prototype.sort], by the sign of
    its result: [Lt] negative, [Eq] zero, [Gt] positive. *)
Variable cmp : A -> A -> comparison.

(** [x] goes after every element it does not precede: the sort is
    stable. *)
Fixpoint insert (x : A) (l : list A) : list A :=
  match l with
  | [] => [x]
  | y :: l' =>
      match cmp y x with
      | Gt => x :: y :: l'
      | _ => y :: insert x l'
      end
  end.

Definition sort (l : list A) : list A :=
  fold_left (fun acc x => insert x acc) l [].

End Sort.

(** A comparator that [sort] can rely on: never [Gt] both ways, and
    transitive on "does not come after". *)
Definition consistent {A : Type} (cmp : A -> A -> comparison) : Prop :=
  (forall x y, cmp x y = Gt -> cmp y x <> Gt)
  /\ (forall x y z, cmp x y <> Gt -> cmp y z <> Gt -> cmp x z <> Gt).

(** No element comes after a later one. *)
Definition in_order {A : Type} (cmp : A -> A -> comparison) (l : list A)
  : Prop :=
  StronglySorted (fun x y => cmp x y <> Gt) l.

(** Strings in strictly increasing code-unit order. *)
Definition increasing (l : list string) : Prop :=
  StronglySorted (fun x y => String.compare x y = Lt) l.

(** [xs[0]] and [xs[xs.length - 1]] of an array of numbers; a missing
    element is [undefined], which compares as NaN. *)
Definition first (xs : list number) : number := hd NaN xs.
Definition last (xs : list number) : number := List.last xs NaN.

(** [xs.filter((v) => v != null)]. *)
Fixpoint nonNull {A : Type} (xs : list (option A)) : list A :=
  match xs with
  | [] => []
  | Some v :: xs' => v :: nonNull xs'
  | None :: xs' => nonNull xs'
  end.

End Arr.

(* ================================================================== *)
(** * Comparison view: quality raters ([comparison-view.tsx]) *)
(* ================================================================== *)

Module ComparisonView.

Inductive Color : Type := green | yellow | red.

Record QualityRating : Type := mkRating {
  label : string;
  color : Color;
}.

Section Raters.

(** ECMAScript built-ins the raters call: [parseFloat] and the
    conversion [String(n)] of a number. *)
Variable parseFloat : string -> number.
Variable Number_toString : number -> string.

(** [String(v ?? "")]. *)
Definition String_of (v : value) : string :=
  match v with
  | VNull => ""
  | VNum n => Number_toString n
  | VStr s => s
  end.

Definition rateRisk (v : value) : QualityRating :=
  let s := Str.toLowerCase (String_of v) in
  if String.eqb s "low" then mkRating "Low Risk" green
  else if String.eqb s "moderate" then mkRating "Medium Risk" yellow
  else mkRating "High Risk" red.

Definition rateDividends (v : value) : QualityRating :=
  let s := Str.toLowerCase (String_of v) in
  if Str.includes s "consistent" || Str.includes s "regular"
  then mkRating "Consistent" green
  else if Str.includes s "irregular" then mkRating "Irregular" yellow
  else mkRating "No Dividends" red.

(** [typeof v === "number" ? v : parseFloat(String(v ?? ""))]. *)
Definition numeric_of (v : value) : number :=
  match v with
  | VNum n => n
  | _ => parseFloat (String_of v)
  end.

Definition rateNumeric (v : value)
    (goodBelow goodAbove fairBelow fairAbove : option number)
    (labels : string * string * string) : QualityRating :=
  let '(l0, l1, l2) := labels in
  let n := numeric_of v in
  if isNaN n then mkRating "N/A" yellow
  else if notnull_and goodBelow (fun g => n <? g) then mkRating l0 green
  else if notnull_and goodAbove (fun g => n >=? g) then mkRating l0 green
  else if notnull_and fairBelow (fun fb =>
            notnull_and fairAbove (fun fa => (n >=? fb) && (n <=? fa)))
       then mkRating l1 yellow
  else if notnull_and fairBelow (fun fb => n >=? fb) && is_null fairAbove
       then mkRating l1 yellow
  else if notnull_and fairAbove (fun fa => n <=? fa) && is_null fairBelow
       then mkRating l1 yellow
  else mkRating l2 red.

Record MetricConfig : Type := mkConfig {
  friendlyTitle : string;
  rateValue : value -> QualityRating;
}.

Definition METRIC_CONFIG : list MetricConfig :=
  [ (* 0 - P/E Ratio *)
    mkConfig "Price-to-Earnings (P/E)"
      (fun v => rateNumeric v (Some (Fin 15)) None (Some (Fin 15)) (Some (Fin 25))
                  ("Looks Cheap", "Fair Price", "Expensive"));
    (* 1 - Net Profit Margin *)
    mkConfig "Net Profit Margin"
      (fun v => rateNumeric v None (Some (Fin 15)) (Some (Fin 5)) (Some (Fin 15))
                  ("Healthy", "Average", "Low"));
    (* 2 - EPS Growth *)
    mkConfig "Earnings Growth (EPS)"
      (fun v => rateNumeric v None (Some (Fin 10)) (Some (Fin 0)) (Some (Fin 10))
                  ("Strong Growth", "Stable", "Declining"));
    (* 3 - 1-Year Price Change *)
    mkConfig "1-Year Price Change"
      (fun v => rateNumeric v None (Some (Fin 20)) (Some (Fin 0)) (Some (Fin 20))
                  ("Strong Rally", "Moderate", "Lost Value"));
    (* 4 - Free Float *)
    mkConfig "Free Float"
      (fun v => rateNumeric v None (Some (Fin 40)) (Some (Fin 20)) (Some (Fin 40))
                  ("Very Liquid", "Moderate", "Low Liquidity"));
    (* 5 - Risk Level *)
    mkConfig "Risk Level"
      rateRisk;
    (* 6 - Dividends *)
    mkConfig "Dividend Track Record"
      rateDividends ].

(** [METRIC_CONFIG[idx].rateValue(v)], as [EnhancedMetricCard] computes
    [ratingA] and [ratingB]; [None] when [idx] is out of range (the
    source would fail on [undefined]). *)
Definition rate_metric (idx : nat) (v : value) : option QualityRating :=
  option_map (fun c => rateValue c v) (nth_error METRIC_CONFIG idx).

End Raters.

(** ** Scoreboard *)

(** [total] of [QuickVerdict]: the number of rounds shown in the
    headline. *)
Definition QuickVerdict_total (scoreA scoreB : number) : number :=
  scoreA + scoreB + (Fin 7 - scoreA - scoreB).

(** [ties] of [VisualScoreboard], whose [total] is the number of
    metrics received. *)
Definition VisualScoreboard_ties (total scoreA scoreB : number) : number :=
  total - scoreA - scoreB.

(** ** Trend badge of the comparison charts *)

(** [None]: the component renders nothing. *)
Definition CompareTrendBadge (values : list (option number)) : option string :=
  let nonNull := Arr.nonNull values in
  if (List.length nonNull <? 2)%nat then None
  else
    let isGrowing := Arr.last nonNull >? Arr.first nonNull in
    Some (if isGrowing then "Growing" else "Declining").

(** ** Overall performance index *)

Record TrendDataPoint : Type := mkPoint {
  year : string;
  valueA : option number;
  valueB : option number;
}.

Definition normaliseSeries (data : list TrendDataPoint) : list TrendDataPoint :=
  let allVals := flat_map (fun d => Arr.nonNull [valueA d; valueB d]) data in
  if (List.length allVals =? 0)%nat then []
  else
    let min := Math_min_list allVals in
    let max := Math_max_list allVals in
    let range := or_else (max - min) (Fin 1) in
    map (fun d =>
           mkPoint (year d)
             (option_map (fun v => ((v - min) / range) * Fin 100) (valueA d))
             (option_map (fun v => ((v - min) / range) * Fin 100) (valueB d)))
        data.

(** [cyear] is the field [year] of the source. *)
Record CompositePoint : Type := mkComposite {
  cyear : string;
  scoreA : number;
  scoreB : number;
  metricsUsed : nat;
}.

(** [new Set] filled by [add]: the first occurrence of each year,
    in insertion order. *)
Fixpoint set_of (seen : list string) (xs : list string) : list string :=
  match xs with
  | [] => []
  | x :: xs' =>
      if existsb (String.eqb x) seen then set_of seen xs'
      else x :: set_of (x :: seen) xs'
  end.

(** The running totals of the loop over the normalised series. *)
Record Totals : Type := mkTotals {
  sumA : number;
  countA : nat;
  sumB : number;
  countB : nat;
}.

Definition accumulate (yr : string) (t : Totals)
    (series : list TrendDataPoint) : Totals :=
  let point := find (fun d => String.eqb (year d) yr) series in
  let t1 :=
    match point with
    | Some {| valueA := Some va |} =>
        mkTotals (sumA t + va) (S (countA t)) (sumB t) (countB t)
    | _ => t
    end in
  match point with
  | Some {| valueB := Some vb |} =>
      mkTotals (sumA t1) (countA t1) (sumB t1 + vb) (S (countB t1))
  | _ => t1
  end.

Definition buildCompositeIndex (allSeries : list (list TrendDataPoint))
  : list CompositePoint :=
  let normed :=
    filter (fun s => (0 <? List.length s)%nat) (map normaliseSeries allSeries) in
  if (List.length normed =? 0)%nat then []
  else
    let years :=
      Arr.sort String.compare (set_of [] (flat_map (map year) normed)) in
    map (fun yr =>
           let t := fold_left (accumulate yr) normed
                      (mkTotals (Fin 0) 0 (Fin 0) 0) in
           mkComposite yr
             (if (0 <? countA t)%nat
              then Math_round (sumA t / of_nat (countA t)) else Fin 0)
             (if (0 <? countB t)%nat
              then Math_round (sumB t / of_nat (countB t)) else Fin 0)
             (Nat.max (countA t) (countB t)))
        years.

(** A series as the stock data carry it: every value a JSON number
    or null. *)
Definition json_series (data : list TrendDataPoint) : Prop :=
  forall d, In d data -> json_number (valueA d) /\ json_number (valueB d).

(** A series whose present values all lie in [0, 100]. *)
Definition percent_series (data : list TrendDataPoint) : Prop :=
  forall d, In d data ->
    between_or_null 0 100 (valueA d) /\ between_or_null 0 100 (valueB d).

(** Running totals of values in [0, 100]: each sum is finite and at
    most 100 times its count. *)
Definition percent_totals (t : Totals) : Prop :=
  exists sa sb,
    sumA t = Fin sa /\ sumB t = Fin sb
    /\ (0 <= sa <= 100 * inject_Z (Z.of_nat (countA t)))%Q
    /\ (0 <= sb <= 100 * inject_Z (Z.of_nat (countB t)))%Q.

(** ** Reading aids for the statements below *)

(** The present values of a series ([allVals] of [normaliseSeries]). *)
Definition series_values (data : list TrendDataPoint) : list number :=
  flat_map (fun d => Arr.nonNull [valueA d; valueB d]) data.

(** A point of [data] holds [v] on one of its two sides. *)
Definition holds (data : list TrendDataPoint) (v : number) : Prop :=
  exists d, In d data /\ (valueA d = Some v \/ valueB d = Some v).

(** The order of the three colours: red below yellow below green. *)
Definition quality (c : Color) : nat :=
  match c with red => 0 | yellow => 1 | green => 2 end.

End ComparisonView.

(* ================================================================== *)
(** * Single-stock health check ([HealthCheck]) *)
(* ================================================================== *)

Module HealthCheck.

Record PERating : Type := mkPE {
  label : string;
  color : string;
  bgColor : string;
}.

Definition getPERating (pe : option number) : PERating :=
  match pe with
  | None => mkPE "N/A" "#404E3F" "#E5E0D9"
  | Some p =>
      if p <=? Fin 0 then mkPE "N/A" "#404E3F" "#E5E0D9"
      else if p <? Fin 15 then mkPE "Looks Cheap" "#4BC232" "#4BC232"
      else if p <=? Fin 25 then mkPE "Fair Price" "#d97706" "#d97706"
      else mkPE "Expensive" "#ef4444" "#ef4444"
  end.

Record RatioYear : Type := mkRatio {
  year : string;
  net_profit_margin : option number;
  eps_growth : option number;
  peg : option number;
}.

(** The fill colour and the caption of the net-profit-margin bar. *)
Definition marginColor (m : number) : string :=
  if m >=? Fin 15 then "#4BC232"
  else if m >=? Fin 5 then "#d97706"
  else "#ef4444".

Definition marginCaption (m : number) : string :=
  if m >=? Fin 15
  then "Healthy margins -- the company keeps a good chunk of its revenue as profit."
  else if m >=? Fin 5
  then "Average margins -- the company is profitable but could do better."
  else "Low margins -- the company keeps very little profit from its revenue.".

(** The caption of the EPS-growth block. *)
Definition epsGrowthCaption (g : number) : string :=
  if g >=? Fin 10
  then "Strong growth! The company's per-share profit is increasing nicely."
  else if g >=? Fin 0
  then "Moderate growth -- per-share profit is stable or slowly rising."
  else "Per-share profit is shrinking. This needs watching.".

(** What the component shows: the P/E badge, and the margin and
    EPS-growth blocks when the latest ratio year reports them. *)
Record View : Type := mkView {
  peRating : PERating;
  marginBlock : option (string * string);
  epsGrowthBlock : option string;
}.

Definition HealthCheck (pe_ratio : option number) (ratios : list RatioYear)
  : View :=
  let latestRatio := List.last (map Some ratios) None in
  mkView
    (getPERating pe_ratio)
    (match latestRatio with
     | Some r =>
         option_map (fun m => (marginColor m, marginCaption m))
                    (net_profit_margin r)
     | None => None
     end)
    (match latestRatio with
     | Some r => option_map epsGrowthCaption (eps_growth r)
     | None => None
     end).

(** [peRatio], the needle of the gauge and the figure under it. *)
Definition peRatio (pe_ratio : option number) : number := pe_ratio ?? Fin 0.

Definition gaugePercent (pe_ratio : option number) : number :=
  Math_min (Math_max ((peRatio pe_ratio / Fin 50) * Fin 100) (Fin 0)) (Fin 100).

Section Figure.

(** [n.toFixed(digits)]. *)
Variable toFixed : number -> nat -> string.

Definition peFigure (pe_ratio : option number) : string :=
  if peRatio pe_ratio >? Fin 0 then toFixed (peRatio pe_ratio) 1 else "N/A".

End Figure.

(** The width of the net-profit-margin bar, in percent. *)
Definition marginWidth (m : number) : number :=
  Math_min (Math_max m (Fin 0)) (Fin 100).

(** The arrow of the EPS-growth block: up (green) or down (red). *)
Definition epsArrowUp (g : number) : bool := g >=? Fin 0.

End HealthCheck.

(* ================================================================== *)
(** * Final verdict: the risk meter ([final-verdict.tsx]) *)
(* ================================================================== *)

Module FinalVerdict.

Record RiskConfig : Type := mkRisk {
  percent : number;
  color : string;
  label : string;
}.

Definition getRiskConfig (risk : string) : RiskConfig :=
  let r := Str.toLowerCase risk in
  if Str.includes r "low" then mkRisk (Fin 25) "#4BC232" "Low Risk"
  else if Str.includes r "high" || Str.includes r "very"
  then mkRisk (Fin 85) "#ef4444" "High Risk"
  else mkRisk (Fin 50) "#d97706" "Medium Risk".

(** [health_color] is the field [color] of the source. *)
Record HealthConfig : Type := mkHealth {
  icon : string;
  health_color : string;
  bg : string;
  border : string;
}.

Definition getHealthConfig (health : string) : HealthConfig :=
  let h := Str.toLowerCase health in
  if Str.includes h "strong" || Str.includes h "good" || Str.includes h "healthy"
  then mkHealth "ShieldCheck" "#4BC232" "bg-[#4BC232]/10" "border-[#4BC232]/30"
  else if Str.includes h "risk" || Str.includes h "weak" || Str.includes h "poor"
  then mkHealth "ShieldAlert" "#ef4444" "bg-red-50" "border-red-200"
  else mkHealth "ShieldQuestion" "#d97706" "bg-amber-50" "border-amber-200".

End FinalVerdict.

(* ================================================================== *)
(** * Financial performance charts ([MoneyTalk]) *)
(* ================================================================== *)

Module MoneyTalk.

Record FinancialYear : Type := mkYear {
  period : string;
  sales : option number;
  total_income : option number;
  profit_after_tax : option number;
  eps : option number;
}.

Section Locale.

(** [a.localeCompare(b)], by the sign of its result. *)
Variable localeCompare : string -> string -> comparison.

Definition sorted (financials : list FinancialYear) : list FinancialYear :=
  Arr.sort (fun a b => localeCompare (period a) (period b)) financials.

Definition incomes (financials : list FinancialYear) : list number :=
  map (fun f => total_income f ?? Fin 0) (sorted financials).

Definition profits (financials : list FinancialYear) : list number :=
  map (fun f => profit_after_tax f ?? Fin 0) (sorted financials).

Definition isGrowing (xs : list number) : bool :=
  (2 <=? List.length xs)%nat && (Arr.last xs >? Arr.first xs).

Definition isGrowingIncome (financials : list FinancialYear) : bool :=
  isGrowing (incomes financials).

Definition isGrowingProfit (financials : list FinancialYear) : bool :=
  isGrowing (profits financials).

End Locale.

Definition TrendBadge (isGrowing : bool) : string :=
  if isGrowing then "Growing" else "Declining".

End MoneyTalk.

(* ================================================================== *)
(** * Company overview: the 52-week range marker ([CompanyOverview]) *)
(* ================================================================== *)

Module CompanyOverview.

(** The fields of [Price] that the range marker reads. *)
Record Price : Type := mkPrice {
  current : option number;
  week52_high : option number;
  week52_low : option number;
}.

Definition w52High (price : Price) : number := week52_high price ?? Fin 0.
Definition w52Low (price : Price) : number := week52_low price ?? Fin 0.
Definition currentPrice (price : Price) : number := current price ?? Fin 0.
Definition range52 (price : Price) : number := w52High price - w52Low price.

Definition rangePercent (price : Price) : number :=
  if range52 price >? Fin 0
  then ((currentPrice price - w52Low price) / range52 price) * Fin 100
  else Fin 50.

(** The range block is rendered when both bounds are positive. *)
Definition showsRange (price : Price) : bool :=
  (w52Low price >? Fin 0) && (w52High price >? Fin 0).

(** The [left] percentage of the marker. *)
Definition markerLeft (price : Price) : number :=
  Math_min (Math_max (rangePercent price) (Fin 2)) (Fin 98).

(** The three fields are JSON numbers or null. *)
Definition json_price (price : Price) : Prop :=
  json_number (current price)
  /\ json_number (week52_high price)
  /\ json_number (week52_low price).

(** The link of the website entry; [None] when the entry is not
    rendered (no website, or an empty one). *)
Definition websiteHref (website : option string) : option string :=
  match website with
  | None => None
  | Some "" => None
  | Some w => Some (if String.prefix "http" w then w else "https://" ++ w)
  end.

End CompanyOverview.

(* ================================================================== *)
(** * The comparison engine *)
(* ================================================================== *)

Module ComparisonEngine.

(** The winner of a metric, as [types/stock.ts] declares it. *)
Inductive Winner : Type := a | b | tie.

(** Modelled from the spec: the categorical risk level and dividend
    track record, each with its rank (a higher rank is better). *)
Inductive RiskLevel : Type := Low | Moderate | High.

Inductive DividendRecord : Type := consistent | irregular | none.

Definition risk_rank (r : RiskLevel) : Z :=
  match r with Low => 2 | Moderate => 1 | High => 0 end.

Definition dividend_rank (d : DividendRecord) : Z :=
  match d with consistent => 2 | irregular => 1 | none => 0 end.

(** Modelled from the spec: a ratio year and the structured company
    record, reduced to the fields the seven metrics read.  The risk
    level and the dividend track record are taken as already
    classified, since the spec leaves their cadence and volatility
    thresholds open. *)
Record RatioYear : Type := mkRatio {
  year : string;
  net_profit_margin : option Q;
  eps_growth : option Q;
}.

Record CompanyRecord : Type := mkRecord {
  pe_ratio : option Q;
  ratios : list RatioYear;
  year_change_percent : option Q;
  free_float_percent : option Q;
  risk_level : option RiskLevel;
  dividend_record : option DividendRecord;
}.

(** The value of a metric on one side ([number | string | null] in
    [types/stock.ts]). *)
Inductive MetricValue : Type :=
| Absent
| Numeric (q : Q)
| Risk (r : RiskLevel)
| Dividend (d : DividendRecord).

(** [ComparisonMetric] and [ComparisonResult] of [types/stock.ts],
    without their free texts (description, displays, explanation,
    verdict). *)
Record ComparisonMetric : Type := mkMetric {
  label : string;
  value_a : MetricValue;
  value_b : MetricValue;
  winner : Winner;
}.

Record ComparisonResult : Type := mkResult {
  metrics : list ComparisonMetric;
  score_a : Z;
  score_b : Z;
}.

(** Modelled from the spec: the latest ratio year of a record and its
    two figures. *)
Definition latest (r : CompanyRecord) : option RatioYear :=
  List.last (map Some (ratios r)) None.

Definition latest_margin (r : CompanyRecord) : option Q :=
  match latest r with Some y => net_profit_margin y | None => None end.

Definition latest_eps_growth (r : CompanyRecord) : option Q :=
  match latest r with Some y => eps_growth y | None => None end.

(** Modelled from the spec: a price/earnings ratio that is absent or
    not positive cannot win. *)
Definition usable_pe (r : CompanyRecord) : option Q :=
  match pe_ratio r with
  | Some q => if Qle_bool q 0 then None else Some q
  | None => None
  end.

(** Modelled from the spec: the per-metric resolution.  Both absent: a
    tie; one absent: the present side wins; both present: equal values
    tie, otherwise the side [better] prefers wins. *)
Definition resolve {V : Type} (same better : V -> V -> bool)
    (va vb : option V) : Winner :=
  match va, vb with
  | None, None => tie
  | Some _, None => a
  | None, Some _ => b
  | Some x, Some y =>
      if same x y then tie else if better x y then a else b
  end.

(** Modelled from the spec: the two directions, "higher is better"
    and "lower is better". *)
Definition higher (x y : Q) : bool := JS.Qltb y x.
Definition lower (x y : Q) : bool := JS.Qltb x y.

Definition numeric (v : option Q) : MetricValue :=
  match v with Some q => Numeric q | None => Absent end.

(** Modelled from the spec: the number of metrics with a given
    winner. *)
Definition count_winner (w : Winner) (ms : list ComparisonMetric) : nat :=
  List.length
    (filter (fun m => match winner m, w with
                      | a, a | b, b | tie, tie => true
                      | _, _ => false
                      end) ms).

(** Modelled from the spec: [compare], which is not part of the front
    end: the fixed catalogue of seven metrics in order, each resolved on
    its own, and the two scores. *)
Definition compare (ra rb : CompanyRecord) : ComparisonResult :=
  let ms :=
    [ mkMetric "Price/earnings ratio"
        (numeric (pe_ratio ra)) (numeric (pe_ratio rb))
        (resolve Qeq_bool lower (usable_pe ra) (usable_pe rb));
      mkMetric "Net profit margin"
        (numeric (latest_margin ra)) (numeric (latest_margin rb))
        (resolve Qeq_bool higher (latest_margin ra) (latest_margin rb));
      mkMetric "EPS growth"
        (numeric (latest_eps_growth ra)) (numeric (latest_eps_growth rb))
        (resolve Qeq_bool higher (latest_eps_growth ra) (latest_eps_growth rb));
      mkMetric "One-year price change"
        (numeric (year_change_percent ra)) (numeric (year_change_percent rb))
        (resolve Qeq_bool higher (year_change_percent ra) (year_change_percent rb));
      mkMetric "Free float"
        (numeric (free_float_percent ra)) (numeric (free_float_percent rb))
        (resolve Qeq_bool higher (free_float_percent ra) (free_float_percent rb));
      mkMetric "Risk level"
        (match risk_level ra with Some r => Risk r | None => Absent end)
        (match risk_level rb with Some r => Risk r | None => Absent end)
        (resolve (fun x y => (risk_rank x =? risk_rank y)%Z)
                 (fun x y => (risk_rank y <? risk_rank x)%Z)
                 (risk_level ra) (risk_level rb));
      mkMetric "Dividend track record"
        (match dividend_record ra with Some d => Dividend d | None => Absent end)
        (match dividend_record rb with Some d => Dividend d | None => Absent end)
        (resolve (fun x y => (dividend_rank x =? dividend_rank y)%Z)
                 (fun x y => (dividend_rank y <? dividend_rank x)%Z)
                 (dividend_record ra) (dividend_record rb)) ] in
  mkResult ms (Z.of_nat (count_winner a ms)) (Z.of_nat (count_winner b ms)).

(** An integer score as the number the view receives. *)
Definition score_number (z : Z) : number := Fin (inject_Z z).

End ComparisonEngine.

(* ================================================================== *)
(** * [Map]: keys in insertion order, the last value set wins *)
(* ================================================================== *)

Module JSMap.

Section Map.

Context {V : Type}.

Definition t : Type := list (string * V).

(** [m.set(k, v)]: overwrites in place, or appends a new key. *)
Fixpoint set (m : t) (k : string) (v : V) : t :=
  match m with
  | [] => [(k, v)]
  | (k', v') :: m' =>
      if String.eqb k' k then (k', v) :: m' else (k', v') :: set m' k v
  end.

(** [new Map(entries)]. *)
Definition of_entries (entries : list (string * V)) : t :=
  fold_left (fun m e => set m (fst e) (snd e)) entries [].

(** [m.keys()]. *)
Definition keys (m : t) : list string := map fst m.

(** [m.get(k)]; [None] is [undefined]. *)
Definition get (m : t) (k : string) : option V :=
  option_map snd (find (fun e => String.eqb (fst e) k) m).

End Map.

End JSMap.

(* ================================================================== *)
(** * Comparison view: aligned series ([comparison-view.tsx]) *)
(* ================================================================== *)

Module Trends.

Import ComparisonView.

(** The body shared by [alignFinancialData] and [alignRatioData], on
    the [year, value] entries handed to [new Map]. *)
Definition alignEntries (entriesA entriesB : list (string * option number))
  : list TrendDataPoint :=
  let mapA := JSMap.of_entries entriesA in
  let mapB := JSMap.of_entries entriesB in
  let allYears :=
    Arr.sort String.compare
      (set_of [] (JSMap.keys mapA ++ JSMap.keys mapB)) in
  map (fun year =>
         mkPoint year (JSMap.get mapA year ?? None) (JSMap.get mapB year ?? None))
      allYears.

Definition alignFinancialData
    (financialsA financialsB : list MoneyTalk.FinancialYear)
    (field : MoneyTalk.FinancialYear -> option number) : list TrendDataPoint :=
  alignEntries (map (fun f => (MoneyTalk.period f, field f)) financialsA)
               (map (fun f => (MoneyTalk.period f, field f)) financialsB).

Definition alignRatioData
    (ratiosA ratiosB : list HealthCheck.RatioYear)
    (field : HealthCheck.RatioYear -> option number) : list TrendDataPoint :=
  alignEntries (map (fun r => (HealthCheck.year r, field r)) ratiosA)
               (map (fun r => (HealthCheck.year r, field r)) ratiosB).

(** The value that the last entry of [entries] with key [k] carries;
    null when there is none. *)
Definition last_value (entries : list (string * option number)) (k : string)
  : option number :=
  match find (fun e => String.eqb (fst e) k) (rev entries) with
  | Some e => snd e
  | None => None
  end.

(** The fields of [StockData] that the trend sections read. *)
Record StockData : Type := mkStock {
  financials_annual : list MoneyTalk.FinancialYear;
  ratios : list HealthCheck.RatioYear;
}.

(** [allSeries] of [AreaTrendsSection]. *)
Definition allSeries (stockA stockB : StockData) : list (list TrendDataPoint) :=
  let hasFinancials :=
    (0 <? List.length (financials_annual stockA))%nat
    || (0 <? List.length (financials_annual stockB))%nat in
  let hasRatios :=
    (0 <? List.length (ratios stockA))%nat
    || (0 <? List.length (ratios stockB))%nat in
  (if hasFinancials
   then [ alignFinancialData (financials_annual stockA)
            (financials_annual stockB) MoneyTalk.total_income;
          alignFinancialData (financials_annual stockA)
            (financials_annual stockB) MoneyTalk.profit_after_tax;
          alignFinancialData (financials_annual stockA)
            (financials_annual stockB) MoneyTalk.eps ]
   else [])
  ++ (if hasRatios
      then [ alignRatioData (ratios stockA) (ratios stockB)
               HealthCheck.net_profit_margin;
             alignRatioData (ratios stockA) (ratios stockB)
               HealthCheck.eps_growth ]
      else []).

(** [composite] of [AreaTrendsSection]. *)
Definition composite (stockA stockB : StockData) : list CompositePoint :=
  buildCompositeIndex (allSeries stockA stockB).

(** Stock data as JSON carries them: every figure finite or null. *)
Definition json_stock (stock : StockData) : Prop :=
  (forall f, In f (financials_annual stock) ->
     json_number (MoneyTalk.total_income f)
     /\ json_number (MoneyTalk.profit_after_tax f)
     /\ json_number (MoneyTalk.eps f))
  /\ (forall r, In r (ratios stock) ->
       json_number (HealthCheck.net_profit_margin r)
       /\ json_number (HealthCheck.eps_growth r)).

End Trends.

(* ================================================================== *)
(** * Comparison view: verdict, scoreboard and grouped cards *)
(* ================================================================== *)

Module Scoreboard.

Import ComparisonEngine.

(** [x === y] on numbers. *)
Definition strict_eq (x y : number) : bool :=
  match x, y with
  | Fin p, Fin q => Qeq_bool p q
  | PosInf, PosInf | NegInf, NegInf => true
  | _, _ => false
  end.

(** The three flags that [ComparisonView] computes from the scores. *)
Definition isWinnerA (score_a score_b : number) : bool := score_a >? score_b.
Definition isWinnerB (score_a score_b : number) : bool := score_b >? score_a.
Definition isTie (score_a score_b : number) : bool := strict_eq score_a score_b.

(** [winnerSym] and [winnerScore] of [QuickVerdict]. *)
Definition winnerSym (symA symB : string) (scoreA scoreB : number)
  : option string :=
  if isWinnerA scoreA scoreB then Some symA
  else if isWinnerB scoreA scoreB then Some symB
  else None.

Definition winnerScore (scoreA scoreB : number) : number :=
  if isWinnerA scoreA scoreB then scoreA else scoreB.

(** The shares of the tug-of-war bar of [VisualScoreboard]. *)
Definition pctA (total scoreA scoreB : number) : number :=
  (scoreA / total) * Fin 100.

Definition pctTie (total scoreA scoreB : number) : number :=
  (ComparisonView.VisualScoreboard_ties total scoreA scoreB / total) * Fin 100.

Definition pctB (total scoreA scoreB : number) : number :=
  (scoreB / total) * Fin 100.

Section Names.

Variable parseFloat : string -> number.
Variable Number_toString : number -> string.

(** [METRIC_CONFIG[idx]?.friendlyTitle ?? `Metric ${idx + 1}`]. *)
Definition getFriendlyName (idx : nat) : string :=
  match nth_error (ComparisonView.METRIC_CONFIG parseFloat Number_toString) idx with
  | Some c => ComparisonView.friendlyTitle c
  | None => "Metric " ++ NilEmpty.string_of_uint (Nat.to_uint (idx + 1))
  end.

(** [metrics.map((m, i) => ...)], from index [i] on. *)
Fixpoint won_from (i : nat) (metrics : list ComparisonMetric) (side : Winner)
  : list (option string) :=
  match metrics with
  | [] => []
  | m :: ms =>
      (match winner m, side with
       | a, a | b, b | tie, tie => Some (getFriendlyName i)
       | _, _ => None
       end) :: won_from (S i) ms side
  end.

Definition getWonRoundNames (metrics : list ComparisonMetric) (side : Winner)
  : list string :=
  Arr.nonNull (won_from 0 metrics side).

End Names.

(** [metricIndices] of the four entries of [CATEGORY_GROUPS], with
    their titles. *)
Record CategoryGroup : Type := mkGroup {
  title : string;
  metricIndices : list nat;
}.

Definition CATEGORY_GROUPS : list CategoryGroup :=
  [ mkGroup "Who's Cheaper?" [0%nat];
    mkGroup "Who Makes More Money?" [1%nat; 2%nat];
    mkGroup "Who's Performing Better?" [3%nat];
    mkGroup "Who's Safer to Invest In?" [4%nat; 5%nat; 6%nat] ].

(** The metrics for which [CategorySection] renders a card, with their
    indices: a missing metric gives no card. *)
Definition CategorySection {M : Type} (group : CategoryGroup)
    (metrics : list M) : list (nat * M) :=
  Arr.nonNull
    (map (fun idx => option_map (fun m => (idx, m)) (nth_error metrics idx))
         (metricIndices group)).

(** All the cards of [ComparisonView], group after group. *)
Definition cards {M : Type} (metrics : list M) : list (nat * M) :=
  flat_map (fun g => CategorySection g metrics) CATEGORY_GROUPS.

(** The first [n] metrics with their indices. *)
Fixpoint indexed_from {M : Type} (i : nat) (metrics : list M) : list (nat * M) :=
  match metrics with
  | [] => []
  | m :: ms => (i, m) :: indexed_from (S i) ms
  end.

End Scoreboard.

(* ================================================================== *)
(** * Number formatting ([lib/format.ts]) *)
(* ================================================================== *)

Module Format.

(** [Math.abs]. *)
Definition Math_abs (x : number) : number :=
  match x with
  | NaN => NaN
  | Fin q => Fin (Qabs q)
  | _ => PosInf
  end.

Section Formatting.

(** [n.toFixed(digits)] and [n.toLocaleString("en-PK")]. *)
Variable toFixed : number -> nat -> string.
Variable toLocaleString : number -> string.

Definition formatPKR (value : number) : string :=
  if Scoreboard.strict_eq value (Fin 0) then "Rs. 0"
  else
    let abs := Math_abs value in
    let sign := if value <? Fin 0 then "-" else "" in
    if abs >=? Fin 10000000
    then sign ++ "Rs. " ++ toFixed (abs / Fin 10000000) 2 ++ " Cr"
    else if abs >=? Fin 100000
    then sign ++ "Rs. " ++ toFixed (abs / Fin 100000) 2 ++ " Lakh"
    else if abs >=? Fin 1000
    then sign ++ "Rs. " ++ toFixed (abs / Fin 1000) 2 ++ "K"
    else sign ++ "Rs. " ++ toLocaleString abs.

Definition formatCompact (value : number) : string :=
  let abs := Math_abs value in
  let sign := if value <? Fin 0 then "-" else "" in
  if abs >=? Fin 1000000000
  then sign ++ toFixed (abs / Fin 1000000000) 1 ++ "B"
  else if abs >=? Fin 1000000
  then sign ++ toFixed (abs / Fin 1000000) 1 ++ "M"
  else if abs >=? Fin 1000
  then sign ++ toFixed (abs / Fin 1000) 1 ++ "K"
  else sign ++ toFixed abs 0.

Definition formatPercent (value : number) : string :=
  let sign := if value >? Fin 0 then "+" else "" in
  sign ++ toFixed value 2 ++ "%".

Definition formatMarketCap (thousands : option number) : string :=
  match thousands with
  | None => "N/A"
  | Some t => formatPKR (t * Fin 1000)
  end.

End Formatting.

(** The sign that the formatters write in front of a negative
    value. *)
Definition minus_sign (v : Q) : string :=
  if Qltb v 0 then "-" else "".

End Format.

(* ================================================================== *)
(** * Concrete built-ins, to exercise the statements *)
(* ================================================================== *)

Module Builtins.

Definition is_digit (c : ascii) : bool :=
  (48 <=? nat_of_ascii c)%nat && (nat_of_ascii c <=? 57)%nat.

Definition digit_value (c : ascii) : Z := Z.of_nat (nat_of_ascii c - 48).

(** Reads the leading decimal digits of [s]: their value on top of
    [acc], how many were read, and the rest of the string. *)
Fixpoint digits (s : string) (acc : Z) (n : nat) : Z * nat * string :=
  match s with
  | String c s' =>
      if is_digit c then digits s' (10 * acc + digit_value c)%Z (S n)
      else (acc, n, s)
  | EmptyString => (acc, n, s)
  end.

(** The magnitude of a plain decimal literal [ddd], [ddd.ddd] or
    [.ddd] at the head of [s]; NaN if there is none. *)
Definition magnitude (s : string) : number :=
  let '(ip, ni, rest) := digits s 0%Z 0%nat in
  match rest with
  | String "."%char rest' =>
      let '(fp, nf, _) := digits rest' 0%Z 0%nat in
      if ((ni + nf)%nat =? 0)%nat then NaN
      else Fin (inject_Z ip + inject_Z fp / inject_Z (10 ^ Z.of_nat nf))%Q
  | _ => if (ni =? 0)%nat then NaN else Fin (inject_Z ip)
  end.

(** [parseFloat] on plain decimal literals with an optional sign;
    leading white space and exponent parts are not read. *)
Definition parseFloat_plain (s : string) : number :=
  match s with
  | String "-"%char s' => neg (magnitude s')
  | String "+"%char s' => magnitude s'
  | _ => magnitude s
  end.

(** [String(n)] for the special values and the integers; other finite
    values are printed as their integer part. *)
Definition Number_toString_plain (n : number) : string :=
  match n with
  | NaN => "NaN"
  | PosInf => "Infinity"
  | NegInf => "-Infinity"
  | Fin q => NilZero.string_of_int (Z.to_int (Qfloor q))
  end.

End Builtins.

(* ================================================================== *)
(** * Facts on numbers *)
(* ================================================================== *)

Lemma Qltb_true (x y : Q) : Qltb x y = true <-> (x < y)%Q.
Proof.
  unfold Qltb. rewrite negb_true_iff.
  split; intro H.
  - apply Qnot_le_lt. intro L. apply Qle_bool_iff in L. congruence.
  - destruct (Qle_bool y x) eqn:E; [|reflexivity].
    apply Qle_bool_iff in E. exfalso. apply (Qlt_not_le _ _ H E).
Qed.

Lemma Qltb_false (x y : Q) : Qltb x y = false <-> (y <= x)%Q.
Proof.
  unfold Qltb. rewrite negb_false_iff. apply Qle_bool_iff.
Qed.

Lemma Qle_bool_false (x y : Q) : Qle_bool x y = false <-> (y < x)%Q.
Proof.
  rewrite <- Qltb_true. unfold Qltb.
  destruct (Qle_bool x y); simpl; split; congruence.
Qed.

Lemma Qeq_bool_false (x y : Q) : Qeq_bool x y = false <-> ~ (x == y)%Q.
Proof.
  split; intro H.
  - intro E. apply Qeq_bool_iff in E. congruence.
  - destruct (Qeq_bool x y) eqn:E; [|reflexivity].
    apply Qeq_bool_iff in E. contradiction.
Qed.

(** Decides every rational test in sight and closes the branches that
    contradict the hypotheses. *)
Ltac qcases :=
  repeat match goal with
  | |- context [Qle_bool ?x ?y] =>
      let E := fresh "E" in
      destruct (Qle_bool x y) eqn:E;
      [apply Qle_bool_iff in E | apply Qle_bool_false in E]
  | |- context [Qltb ?x ?y] =>
      let E := fresh "E" in
      destruct (Qltb x y) eqn:E;
      [apply Qltb_true in E | apply Qltb_false in E]
  | |- context [Qeq_bool ?x ?y] =>
      let E := fresh "E" in
      destruct (Qeq_bool x y) eqn:E;
      [apply Qeq_bool_iff in E | apply Qeq_bool_false in E]
  end;
  simpl.

(* ================================================================== *)
(** * Rating bands *)
(* ================================================================== *)

Section Bands.

Import ComparisonView.

Variable parseFloat : string -> number.
Variable Number_toString : number -> string.

Local Abbreviation rate := (rate_metric parseFloat Number_toString).

(** For a positive price/earnings ratio the single-stock rating and
    the badge of the comparison view name the same band: cheap below
    15, fair from 15 to 25 inclusive, expensive above 25. *)
Lemma pe_bands_agree_positive (pe : Q) :
  ((0 < pe < 15)%Q ->
     HealthCheck.label (HealthCheck.getPERating (Some (Fin pe))) = "Looks Cheap"
     /\ rate 0%nat (VNum (Fin pe)) = Some (mkRating "Looks Cheap" green))
  /\ ((15 <= pe <= 25)%Q ->
     HealthCheck.label (HealthCheck.getPERating (Some (Fin pe))) = "Fair Price"
     /\ rate 0%nat (VNum (Fin pe)) = Some (mkRating "Fair Price" yellow))
  /\ ((25 < pe)%Q ->
     HealthCheck.label (HealthCheck.getPERating (Some (Fin pe))) = "Expensive"
     /\ rate 0%nat (VNum (Fin pe)) = Some (mkRating "Expensive" red)).
Proof.
  unfold rate, rate_metric, HealthCheck.getPERating. simpl.
  unfold ge, le, lt.
  repeat split; qcases; try reflexivity; exfalso; lra.
Qed.

(** The single-stock rating of a ratio that is absent or not positive
    is "N/A". *)
Lemma getPERating_not_positive (pe : Q) :
  (pe <= 0)%Q ->
  HealthCheck.label (HealthCheck.getPERating (Some (Fin pe))) = "N/A"
  /\ HealthCheck.label (HealthCheck.getPERating None) = "N/A".
Proof.
  intro H. split; [|reflexivity].
  unfold HealthCheck.getPERating, le. qcases; try reflexivity; exfalso; lra.
Qed.

(** The badge of the comparison view rates every ratio below 15,
    the non-positive ones included, "Looks Cheap". *)
Lemma pe_badge_below_15 (pe : Q) :
  (pe < 15)%Q ->
  rate 0%nat (VNum (Fin pe)) = Some (mkRating "Looks Cheap" green).
Proof.
  intro H. unfold rate, rate_metric. simpl. unfold lt.
  qcases; try reflexivity; exfalso; lra.
Qed.

(** C1 (fails on the code).  The price/earnings bands are not the same
    in the two views: for a ratio of -5, and for a ratio of 0, the
    single-stock rating [getPERating] answers "N/A" while the badge of
    the comparison view, [METRIC_CONFIG[0].rateValue], answers
    "Looks Cheap" in green. *)
Theorem pe_badge_not_positive_looks_cheap :
  HealthCheck.label (HealthCheck.getPERating (Some (Fin (-5)))) = "N/A"
  /\ rate 0%nat (VNum (Fin (-5))) = Some (mkRating "Looks Cheap" green)
  /\ HealthCheck.label (HealthCheck.getPERating (Some (Fin 0))) = "N/A"
  /\ rate 0%nat (VNum (Fin 0)) = Some (mkRating "Looks Cheap" green).
Proof.
  repeat split;
    first [ apply getPERating_not_positive; lra
          | apply pe_badge_below_15; lra ].
Qed.

(** The margin and EPS-growth blocks of the health check show the
    latest ratio year. *)
Lemma HealthCheck_latest_blocks pe ratios r :
  HealthCheck.marginBlock (HealthCheck.HealthCheck pe (ratios ++ [r]))
  = option_map (fun m => (HealthCheck.marginColor m, HealthCheck.marginCaption m))
      (HealthCheck.net_profit_margin r)
  /\ HealthCheck.epsGrowthBlock (HealthCheck.HealthCheck pe (ratios ++ [r]))
    = option_map HealthCheck.epsGrowthCaption (HealthCheck.eps_growth r).
Proof.
  unfold HealthCheck.HealthCheck.
  rewrite map_app. cbn [map]. rewrite last_last. split; reflexivity.
Qed.

(** C5.  A present net profit margin [m] is rated healthy when
    [m >= 15], average when [5 <= m < 15] and low when [m < 5], by the
    single-stock health check (caption and bar colour) and by the badge
    of the comparison view alike. *)
Theorem margin_bands_agree (m : Q) :
  ((15 <= m)%Q ->
     HealthCheck.marginCaption (Fin m)
     = "Healthy margins -- the company keeps a good chunk of its revenue as profit."
     /\ HealthCheck.marginColor (Fin m) = "#4BC232"
     /\ rate 1%nat (VNum (Fin m)) = Some (mkRating "Healthy" green))
  /\ ((5 <= m < 15)%Q ->
     HealthCheck.marginCaption (Fin m)
     = "Average margins -- the company is profitable but could do better."
     /\ HealthCheck.marginColor (Fin m) = "#d97706"
     /\ rate 1%nat (VNum (Fin m)) = Some (mkRating "Average" yellow))
  /\ ((m < 5)%Q ->
     HealthCheck.marginCaption (Fin m)
     = "Low margins -- the company keeps very little profit from its revenue."
     /\ HealthCheck.marginColor (Fin m) = "#ef4444"
     /\ rate 1%nat (VNum (Fin m)) = Some (mkRating "Low" red)).
Proof.
  unfold rate, rate_metric, HealthCheck.marginCaption, HealthCheck.marginColor.
  simpl. unfold ge, le.
  repeat split; qcases; try reflexivity; exfalso; lra.
Qed.

(** C6.  A present EPS growth [g] is rated strong growth when
    [g >= 10], stable when [0 <= g < 10] and declining when [g < 0], by
    the single-stock health check (caption) and by the badge of the
    comparison view alike. *)
Theorem eps_growth_bands_agree (g : Q) :
  ((10 <= g)%Q ->
     HealthCheck.epsGrowthCaption (Fin g)
     = "Strong growth! The company's per-share profit is increasing nicely."
     /\ rate 2%nat (VNum (Fin g)) = Some (mkRating "Strong Growth" green))
  /\ ((0 <= g < 10)%Q ->
     HealthCheck.epsGrowthCaption (Fin g)
     = "Moderate growth -- per-share profit is stable or slowly rising."
     /\ rate 2%nat (VNum (Fin g)) = Some (mkRating "Stable" yellow))
  /\ ((g < 0)%Q ->
     HealthCheck.epsGrowthCaption (Fin g)
     = "Per-share profit is shrinking. This needs watching."
     /\ rate 2%nat (VNum (Fin g)) = Some (mkRating "Declining" red)).
Proof.
  unfold rate, rate_metric, HealthCheck.epsGrowthCaption.
  simpl. unfold ge, le.
  repeat split; qcases; try reflexivity; exfalso; lra.
Qed.

(** A value that does not read as a number is rated "N/A" in yellow,
    whatever the thresholds and the labels. *)
Lemma rateNumeric_NaN v gb ga fb fa labels :
  isNaN (numeric_of parseFloat Number_toString v) = true ->
  rateNumeric parseFloat Number_toString v gb ga fb fa labels
  = mkRating "N/A" yellow.
Proof.
  intro H. unfold rateNumeric. destruct labels as [[l0 l1] l2].
  rewrite H. reflexivity.
Qed.

(** C8.  With [parseFloat] reading the empty string as NaN: a metric
    value that is null, or that does not read as a number
    ([parseFloat] gives NaN on it), is rated "N/A" in yellow by
    [rateNumeric], for all thresholds and labels, and so by each of the
    five numeric metrics (P/E, margin, EPS growth, one-year price change,
    free float): never a green or red badge. *)
Theorem absent_value_rated_NA (v : value) :
  parseFloat "" = NaN ->
  v = VNull \/ isNaN (numeric_of parseFloat Number_toString v) = true ->
  (forall gb ga fb fa labels,
      rateNumeric parseFloat Number_toString v gb ga fb fa labels
      = mkRating "N/A" yellow)
  /\ (forall idx, (idx < 5)%nat -> rate idx v = Some (mkRating "N/A" yellow)).
Proof.
  intros Hempty Hv.
  assert (Hnan : isNaN (numeric_of parseFloat Number_toString v) = true).
  { destruct Hv as [-> | Hv]; [|exact Hv]. simpl. rewrite Hempty. reflexivity. }
  split.
  - intros. apply rateNumeric_NaN, Hnan.
  - intros idx Hidx. unfold rate, rate_metric.
    do 5 (destruct idx as [|idx];
          [simpl; rewrite Hnan; reflexivity|]).
    lia.
Qed.

End Bands.

Lemma margin_bands_agree_witness :
  (HealthCheck.marginCaption (Fin 15)
   = "Healthy margins -- the company keeps a good chunk of its revenue as profit."
   /\ HealthCheck.marginColor (Fin 15) = "#4BC232"
   /\ ComparisonView.rate_metric Builtins.parseFloat_plain
        Builtins.Number_toString_plain 1 (VNum (Fin 15))
      = Some (ComparisonView.mkRating "Healthy" ComparisonView.green))
  /\ (HealthCheck.marginCaption (Fin 5)
     = "Average margins -- the company is profitable but could do better."
     /\ HealthCheck.marginColor (Fin 5) = "#d97706"
     /\ ComparisonView.rate_metric Builtins.parseFloat_plain
          Builtins.Number_toString_plain 1 (VNum (Fin 5))
        = Some (ComparisonView.mkRating "Average" ComparisonView.yellow))
  /\ (HealthCheck.marginCaption (Fin (499 # 100))
     = "Low margins -- the company keeps very little profit from its revenue."
     /\ HealthCheck.marginColor (Fin (499 # 100)) = "#ef4444"
     /\ ComparisonView.rate_metric Builtins.parseFloat_plain
          Builtins.Number_toString_plain 1 (VNum (Fin (499 # 100)))
        = Some (ComparisonView.mkRating "Low" ComparisonView.red)).
Proof.
  split; [|split].
  - apply (margin_bands_agree Builtins.parseFloat_plain
             Builtins.Number_toString_plain 15). lra.
  - apply (margin_bands_agree Builtins.parseFloat_plain
             Builtins.Number_toString_plain 5). lra.
  - apply (margin_bands_agree Builtins.parseFloat_plain
             Builtins.Number_toString_plain (499 # 100)). lra.
Defined.

Lemma eps_growth_bands_agree_witness :
  (HealthCheck.epsGrowthCaption (Fin 10)
   = "Strong growth! The company's per-share profit is increasing nicely."
   /\ ComparisonView.rate_metric Builtins.parseFloat_plain
        Builtins.Number_toString_plain 2 (VNum (Fin 10))
      = Some (ComparisonView.mkRating "Strong Growth" ComparisonView.green))
  /\ (HealthCheck.epsGrowthCaption (Fin 0)
     = "Moderate growth -- per-share profit is stable or slowly rising."
     /\ ComparisonView.rate_metric Builtins.parseFloat_plain
          Builtins.Number_toString_plain 2 (VNum (Fin 0))
        = Some (ComparisonView.mkRating "Stable" ComparisonView.yellow))
  /\ (HealthCheck.epsGrowthCaption (Fin (-3))
     = "Per-share profit is shrinking. This needs watching."
     /\ ComparisonView.rate_metric Builtins.parseFloat_plain
          Builtins.Number_toString_plain 2 (VNum (Fin (-3)))
        = Some (ComparisonView.mkRating "Declining" ComparisonView.red)).
Proof.
  split; [|split].
  - apply (eps_growth_bands_agree Builtins.parseFloat_plain
             Builtins.Number_toString_plain 10). lra.
  - apply (eps_growth_bands_agree Builtins.parseFloat_plain
             Builtins.Number_toString_plain 0). lra.
  - apply (eps_growth_bands_agree Builtins.parseFloat_plain
             Builtins.Number_toString_plain (-3)). lra.
Defined.

Lemma absent_value_rated_NA_witness :
  Builtins.parseFloat_plain "" = NaN
  /\ (forall idx, (idx < 5)%nat ->
        ComparisonView.rate_metric Builtins.parseFloat_plain
          Builtins.Number_toString_plain idx VNull
        = Some (ComparisonView.mkRating "N/A" ComparisonView.yellow))
  /\ (forall idx, (idx < 5)%nat ->
        ComparisonView.rate_metric Builtins.parseFloat_plain
          Builtins.Number_toString_plain idx (VStr "n/a")
        = Some (ComparisonView.mkRating "N/A" ComparisonView.yellow)).
Proof.
  split; [reflexivity|]. split.
  - apply (absent_value_rated_NA Builtins.parseFloat_plain
             Builtins.Number_toString_plain VNull);
      [reflexivity | left; reflexivity].
  - apply (absent_value_rated_NA Builtins.parseFloat_plain
             Builtins.Number_toString_plain (VStr "n/a"));
      [reflexivity | right; reflexivity].
Defined.

(* ================================================================== *)
(** * Categorical raters: risk level and dividend track record *)
(* ================================================================== *)

Lemma lower_char_idem (c : ascii) :
  Str.lower_char (Str.lower_char c) = Str.lower_char c.
Proof.
  destruct c as [[] [] [] [] [] [] [] []]; reflexivity.
Qed.

Lemma lower_upper_char (c : ascii) :
  Str.lower_char (Str.upper_char c) = Str.lower_char c.
Proof.
  destruct c as [[] [] [] [] [] [] [] []]; reflexivity.
Qed.

Lemma same_letter_lower (c d : ascii) :
  Str.same_letter c d -> Str.lower_char d = Str.lower_char c.
Proof.
  intros [->|[->| ->]];
    [reflexivity | apply lower_char_idem | apply lower_upper_char].
Qed.

Lemma casing_variant_toLowerCase (s t : string) :
  Str.casing_variant s t -> Str.toLowerCase s = Str.toLowerCase t.
Proof.
  induction 1 as [|c d s t Hcd _ IH]; simpl.
  - reflexivity.
  - rewrite (same_letter_lower c d Hcd), IH. reflexivity.
Qed.

(** C7.  Both risk raters are case-insensitive: a string and any
    letter-casing variant of it get the same rating from [rateRisk]
    (comparison view) and from [getRiskConfig] (single-stock view); and
    every casing of "Low", "Moderate", "High" is rated Low Risk,
    Medium Risk, High Risk respectively by both. *)
Theorem risk_rating_case_insensitive
    (Number_toString : number -> string) (s s' : string) :
  Str.casing_variant s s' ->
  (ComparisonView.rateRisk Number_toString (VStr s')
   = ComparisonView.rateRisk Number_toString (VStr s)
   /\ FinalVerdict.getRiskConfig s' = FinalVerdict.getRiskConfig s)
  /\ (s = "Low" ->
      ComparisonView.rateRisk Number_toString (VStr s')
      = ComparisonView.mkRating "Low Risk" ComparisonView.green
      /\ FinalVerdict.label (FinalVerdict.getRiskConfig s') = "Low Risk")
  /\ (s = "Moderate" ->
      ComparisonView.rateRisk Number_toString (VStr s')
      = ComparisonView.mkRating "Medium Risk" ComparisonView.yellow
      /\ FinalVerdict.label (FinalVerdict.getRiskConfig s') = "Medium Risk")
  /\ (s = "High" ->
      ComparisonView.rateRisk Number_toString (VStr s')
      = ComparisonView.mkRating "High Risk" ComparisonView.red
      /\ FinalVerdict.label (FinalVerdict.getRiskConfig s') = "High Risk").
Proof.
  intro H. apply casing_variant_toLowerCase in H.
  unfold ComparisonView.rateRisk, FinalVerdict.getRiskConfig.
  cbn [ComparisonView.String_of]. rewrite <- H.
  split; [split; reflexivity|].
  split; [|split]; intros ->; split; reflexivity.
Qed.

Lemma risk_rating_case_insensitive_witness :
  (ComparisonView.rateRisk Builtins.Number_toString_plain (VStr "LOW")
   = ComparisonView.mkRating "Low Risk" ComparisonView.green
   /\ FinalVerdict.label (FinalVerdict.getRiskConfig "LOW") = "Low Risk")
  /\ (ComparisonView.rateRisk Builtins.Number_toString_plain (VStr "mODERATE")
      = ComparisonView.mkRating "Medium Risk" ComparisonView.yellow
      /\ FinalVerdict.label (FinalVerdict.getRiskConfig "mODERATE")
         = "Medium Risk")
  /\ (ComparisonView.rateRisk Builtins.Number_toString_plain (VStr "high")
      = ComparisonView.mkRating "High Risk" ComparisonView.red
      /\ FinalVerdict.label (FinalVerdict.getRiskConfig "high") = "High Risk").
Proof.
  assert (HL : Str.casing_variant "Low" "LOW")
    by (repeat constructor; unfold Str.same_letter; cbn; tauto).
  assert (HM : Str.casing_variant "Moderate" "mODERATE")
    by (repeat constructor; unfold Str.same_letter; cbn; tauto).
  assert (HH : Str.casing_variant "High" "high")
    by (repeat constructor; unfold Str.same_letter; cbn; tauto).
  split; [|split].
  - apply (risk_rating_case_insensitive
             Builtins.Number_toString_plain "Low" "LOW" HL). reflexivity.
  - apply (risk_rating_case_insensitive
             Builtins.Number_toString_plain "Moderate" "mODERATE" HM).
    reflexivity.
  - apply (risk_rating_case_insensitive
             Builtins.Number_toString_plain "High" "high" HH). reflexivity.
Defined.

(** *** [includes] *)

Lemma includes_of_prefix (s sub : string) :
  String.prefix sub s = true -> Str.includes s sub = true.
Proof.
  intro H. destruct s; cbn [Str.includes]; rewrite H; reflexivity.
Qed.

Lemma includes_cons (c : ascii) (s sub : string) :
  Str.includes s sub = true -> Str.includes (String c s) sub = true.
Proof.
  intro H. cbn [Str.includes].
  destruct (String.prefix sub (String c s)); [reflexivity | exact H].
Qed.

Lemma prefix_cons_inv (x : ascii) (sub : string) (s : string) :
  String.prefix (String x sub) s = true ->
  exists s', s = String x s' /\ String.prefix sub s' = true.
Proof.
  destruct s as [|c s']; simpl; [discriminate|].
  destruct (ascii_dec x c) as [->|]; [|discriminate].
  intro H. exists s'. split; [reflexivity | exact H].
Qed.

(** Whatever contains "irregular" contains "regular". *)
Lemma includes_irregular_regular (s : string) :
  Str.includes s "irregular" = true -> Str.includes s "regular" = true.
Proof.
  induction s as [|c s IH]; cbn [Str.includes].
  - simpl. discriminate.
  - destruct (String.prefix "irregular" (String c s)) eqn:P.
    + intros _.
      apply prefix_cons_inv in P. destruct P as (s1 & E1 & P).
      apply prefix_cons_inv in P. destruct P as (s2 & E2 & P).
      injection E1 as _ E1. subst s s1.
      destruct (String.prefix "regular" (String c (String "r" s2)));
        [reflexivity|].
      apply includes_cons, includes_of_prefix, P.
    + intro H. apply IH in H.
      destruct (String.prefix "regular" (String c s)); [reflexivity | exact H].
Qed.

(** The "Irregular" rating is out of reach: [rateDividends] never
    returns it. *)
Lemma rateDividends_never_Irregular
    (Number_toString : number -> string) (v : value) :
  ComparisonView.rateDividends Number_toString v
  <> ComparisonView.mkRating "Irregular" ComparisonView.yellow.
Proof.
  unfold ComparisonView.rateDividends.
  set (s := Str.toLowerCase _).
  destruct (Str.includes s "consistent"); cbn [orb]; [discriminate|].
  destruct (Str.includes s "regular") eqn:R; [discriminate|].
  destruct (Str.includes s "irregular") eqn:I; [|discriminate].
  apply includes_irregular_regular in I. congruence.
Qed.

(** C3 (fails on the code).  [rateDividends] rates the track record
    "irregular", in any casing, "Consistent" in green, the same rating as
    "consistent": it tests for the substring "regular" before it tests
    for "irregular".  "none" and the absent value are rated
    "No Dividends". *)
Theorem rateDividends_irregular_is_consistent
    (Number_toString : number -> string) :
  ComparisonView.rateDividends Number_toString (VStr "irregular")
  = ComparisonView.mkRating "Consistent" ComparisonView.green
  /\ ComparisonView.rateDividends Number_toString (VStr "Irregular")
     = ComparisonView.mkRating "Consistent" ComparisonView.green
  /\ ComparisonView.rateDividends Number_toString (VStr "consistent")
     = ComparisonView.mkRating "Consistent" ComparisonView.green
  /\ ComparisonView.rateDividends Number_toString (VStr "none")
     = ComparisonView.mkRating "No Dividends" ComparisonView.red
  /\ ComparisonView.rateDividends Number_toString VNull
     = ComparisonView.mkRating "No Dividends" ComparisonView.red.
Proof.
  repeat split; reflexivity.
Qed.

(* ================================================================== *)
(** * Trend badges *)
(* ================================================================== *)

(** C2 (fails on the code).  [MoneyTalk] classifies the trend with an
    absent income counted as 0: for the periods 2020 (income absent),
    2021 (income 100), 2022 (income 50), sorted in that order, its
    income series is 0, 100, 50 and its badge reads "Growing"; the
    trend badge of the comparison view, which leaves absent periods
    out, reads "Declining" on the same values. *)
Theorem MoneyTalk_absent_income_counted_as_zero
    (localeCompare : string -> string -> comparison) :
  localeCompare "2020" "2021" = Lt ->
  localeCompare "2020" "2022" = Lt ->
  localeCompare "2021" "2022" = Lt ->
  let financials :=
    [ MoneyTalk.mkYear "2020" None None None None;
      MoneyTalk.mkYear "2021" None (Some (Fin 100)) None None;
      MoneyTalk.mkYear "2022" None (Some (Fin 50)) None None ] in
  MoneyTalk.incomes localeCompare financials = [Fin 0; Fin 100; Fin 50]
  /\ MoneyTalk.TrendBadge (MoneyTalk.isGrowingIncome localeCompare financials)
     = "Growing"
  /\ ComparisonView.CompareTrendBadge (map MoneyTalk.total_income financials)
     = Some "Declining".
Proof.
  intros H01 H02 H12 financials.
  assert (E : MoneyTalk.incomes localeCompare financials
              = [Fin 0; Fin 100; Fin 50]).
  { unfold MoneyTalk.incomes, MoneyTalk.sorted, Arr.sort, financials.
    cbn [fold_left Arr.insert MoneyTalk.period].
    rewrite H01. cbn [Arr.insert MoneyTalk.period].
    rewrite H02. cbn [Arr.insert MoneyTalk.period].
    rewrite H12. reflexivity. }
  split; [exact E|]. split.
  - unfold MoneyTalk.isGrowingIncome. rewrite E. reflexivity.
  - reflexivity.
Qed.

Lemma MoneyTalk_absent_income_counted_as_zero_witness :
  let financials :=
    [ MoneyTalk.mkYear "2020" None None None None;
      MoneyTalk.mkYear "2021" None (Some (Fin 100)) None None;
      MoneyTalk.mkYear "2022" None (Some (Fin 50)) None None ] in
  MoneyTalk.incomes String.compare financials = [Fin 0; Fin 100; Fin 50]
  /\ MoneyTalk.TrendBadge (MoneyTalk.isGrowingIncome String.compare financials)
     = "Growing"
  /\ ComparisonView.CompareTrendBadge (map MoneyTalk.total_income financials)
     = Some "Declining".
Proof.
  apply (MoneyTalk_absent_income_counted_as_zero String.compare);
    reflexivity.
Defined.

(* ================================================================== *)
(** * The 52-week range marker *)
(* ================================================================== *)

(** A nullable JSON number read with [?? 0] is finite. *)
Lemma nullish_finite (x : option number) :
  json_number x -> finite (x ?? Fin 0).
Proof.
  destruct x as [n|]; [intro H; exact H | intros _; exact I].
Qed.

(** [Math.min(Math.max(x, 2), 98)] of a finite [x] lies in [2, 98]. *)
Lemma clamp_2_98 (x : Q) :
  between 2 98 (Math_min (Math_max (Fin x) (Fin 2)) (Fin 98)).
Proof.
  unfold Math_max, le.
  destruct (Qle_bool x 2) eqn:E1; unfold Math_min, le.
  - simpl. lra.
  - apply Qle_bool_false in E1.
    destruct (Qle_bool x 98) eqn:E2.
    + apply Qle_bool_iff in E2. simpl. lra.
    + simpl. lra.
Qed.



(* ================================================================== *)
(** * The composite performance index *)
(* ================================================================== *)

Section Composite.

Import ComparisonView.

Lemma nonNull_In {A : Type} (xs : list (option A)) (v : A) :
  In v (Arr.nonNull xs) <-> In (Some v) xs.
Proof.
  induction xs as [|[x|] xs IH]; simpl.
  - tauto.
  - rewrite IH. split; (intros [E|H]; [left; congruence | right; exact H]).
  - rewrite IH. split; [tauto | intros [E|H]; [discriminate | exact H]].
Qed.

(** [Math.min(...xs)] of finitely many finite numbers is a finite lower
    bound of them; [Math.max(...xs)] a finite upper bound. *)
Lemma Math_min_list_spec (l : list number) :
  Forall finite l -> l <> [] ->
  exists m, Math_min_list l = Fin m /\ forall q, In (Fin q) l -> (m <= q)%Q.
Proof.
  induction l as [|x l IH]; intros HF Hne; [contradiction|].
  inversion HF as [|? ? Hx HF']; subst.
  destruct x as [| |q0|]; try contradiction.
  destruct l as [|y l'].
  - exists q0. split; [reflexivity|].
    intros q [E|[]]. injection E as <-. apply Qle_refl.
  - destruct IH as (m' & Em & Hm); [assumption | discriminate |].
    change (Math_min_list (Fin q0 :: y :: l'))
      with (Math_min (Fin q0) (Math_min_list (y :: l'))).
    rewrite Em. unfold Math_min, le.
    destruct (Qle_bool q0 m') eqn:E.
    + apply Qle_bool_iff in E. exists q0. split; [reflexivity|].
      intros q [Eq|Hin].
      * injection Eq as <-. apply Qle_refl.
      * apply Hm in Hin. lra.
    + apply Qle_bool_false in E. exists m'. split; [reflexivity|].
      intros q [Eq|Hin].
      * injection Eq as <-. lra.
      * apply Hm, Hin.
Qed.

Lemma Math_max_list_spec (l : list number) :
  Forall finite l -> l <> [] ->
  exists m, Math_max_list l = Fin m /\ forall q, In (Fin q) l -> (q <= m)%Q.
Proof.
  induction l as [|x l IH]; intros HF Hne; [contradiction|].
  inversion HF as [|? ? Hx HF']; subst.
  destruct x as [| |q0|]; try contradiction.
  destruct l as [|y l'].
  - exists q0. split; [reflexivity|].
    intros q [E|[]]. injection E as <-. apply Qle_refl.
  - destruct IH as (m' & Em & Hm); [assumption | discriminate |].
    change (Math_max_list (Fin q0 :: y :: l'))
      with (Math_max (Fin q0) (Math_max_list (y :: l'))).
    rewrite Em. unfold Math_max, le.
    destruct (Qle_bool q0 m') eqn:E.
    + apply Qle_bool_iff in E. exists m'. split; [reflexivity|].
      intros q [Eq|Hin].
      * injection Eq as <-. exact E.
      * apply Hm, Hin.
    + apply Qle_bool_false in E. exists q0. split; [reflexivity|].
      intros q [Eq|Hin].
      * injection Eq as <-. apply Qle_refl.
      * apply Hm in Hin. lra.
Qed.

(** A value between the minimum and the maximum is normalised into
    [0, 100]; when the two coincide the range is replaced by 1. *)
Lemma normalised_between (m M q : Q) :
  (m <= q)%Q -> (q <= M)%Q ->
  between 0 100
    (((Fin q - Fin m) / or_else (Fin M - Fin m) (Fin 1)) * Fin 100).
Proof.
  intros Hm HM. cbn [sub add neg]. unfold or_else, truthy.
  destruct (Qeq_bool (M + - m) 0) eqn:Z; cbn [negb].
  - apply Qeq_bool_iff in Z.
    cbn [div]. change (Qeq_bool 1 0) with false. cbn [mul between].
    assert (E : (q + - m == 0)%Q) by lra.
    rewrite E. split; [discriminate | discriminate].
  - cbn [div]. rewrite Z. cbn [mul between].
    apply Qeq_bool_false in Z.
    assert (Hpos : (0 < M + - m)%Q).
    { destruct (Qlt_le_dec 0 (M + - m)) as [L|L]; [exact L|].
      exfalso. apply Z. lra. }
    assert (H0 : (0 <= (q + - m) / (M + - m))%Q).
    { apply Qle_shift_div_l; [exact Hpos | lra]. }
    assert (H1 : ((q + - m) / (M + - m) <= 1)%Q).
    { apply Qle_shift_div_r; [exact Hpos | lra]. }
    revert H0 H1. generalize ((q + - m) / (M + - m))%Q. intros t H0 H1.
    split; lra.
Qed.

Lemma normaliseSeries_percent (data : list TrendDataPoint) :
  json_series data -> percent_series (normaliseSeries data).
Proof.
  intros HJ d Hd. unfold normaliseSeries in Hd.
  set (allVals := flat_map (fun d => Arr.nonNull [valueA d; valueB d]) data) in *.
  cbv zeta in Hd.
  destruct (List.length allVals =? 0)%nat eqn:L; [contradiction|].
  assert (Hin : forall d0 v, In d0 data ->
            valueA d0 = Some v \/ valueB d0 = Some v -> In v allVals).
  { intros d0 v Hd0 Hv. apply in_flat_map. exists d0. split; [exact Hd0|].
    apply nonNull_In. simpl. destruct Hv as [<-| <-]; auto. }
  assert (HF : Forall finite allVals).
  { apply Forall_forall. intros v Hv.
    apply in_flat_map in Hv. destruct Hv as (d0 & Hd0 & Hv).
    apply nonNull_In in Hv. destruct (HJ d0 Hd0) as [JA JB].
    destruct Hv as [E|[E|[]]].
    - rewrite E in JA. exact JA.
    - rewrite E in JB. exact JB. }
  assert (Hne : allVals <> []).
  { intro E. rewrite E in L. discriminate. }
  destruct (Math_min_list_spec allVals HF Hne) as (m & Em & Hm).
  destruct (Math_max_list_spec allVals HF Hne) as (M & EM & HM).
  rewrite Em, EM in Hd.
  apply in_map_iff in Hd. destruct Hd as (d0 & <- & Hd0).
  destruct (HJ d0 Hd0) as [JA JB].
  cbn [valueA valueB]. split.
  - destruct (valueA d0) as [[| |q|]|] eqn:EA; try contradiction; [|exact I].
    cbn [option_map between_or_null].
    assert (Hq : In (Fin q) allVals) by (apply (Hin d0); auto).
    apply normalised_between; [apply Hm | apply HM]; exact Hq.
  - destruct (valueB d0) as [[| |q|]|] eqn:EB; try contradiction; [|exact I].
    cbn [option_map between_or_null].
    assert (Hq : In (Fin q) allVals) by (apply (Hin d0); auto).
    apply normalised_between; [apply Hm | apply HM]; exact Hq.
Qed.

Lemma inject_Z_succ (n : nat) :
  (inject_Z (Z.of_nat (S n)) == inject_Z (Z.of_nat n) + 1)%Q.
Proof.
  rewrite Nat2Z.inj_succ. unfold Z.succ. rewrite inject_Z_plus. reflexivity.
Qed.

Lemma accumulate_percent (yr : string) (t : Totals)
    (series : list TrendDataPoint) :
  percent_series series -> percent_totals t ->
  percent_totals (accumulate yr t series).
Proof.
  intros HS (sa & sb & Ea & Eb & Ha & Hb). unfold accumulate.
  destruct (find (fun d => String.eqb (year d) yr) series) as [p|] eqn:F.
  2:{ exists sa, sb. auto. }
  apply find_some in F. destruct F as [Hp _].
  destruct (HS p Hp) as [PA PB]. destruct p as [y va vb].
  cbn [valueA valueB] in PA, PB.
  destruct va as [[| |a0|]|]; try contradiction;
    destruct vb as [[| |b0|]|]; try contradiction;
    cbn [between_or_null between] in PA, PB;
    cbn [sumA sumB countA countB]; rewrite ?Ea, ?Eb; cbn [add].
  - exists (sa + a0)%Q, (sb + b0)%Q. cbn [sumA sumB countA countB].
    rewrite !inject_Z_succ. repeat split; lra.
  - exists (sa + a0)%Q, sb. cbn [sumA sumB countA countB].
    rewrite ?inject_Z_succ. repeat split; try lra; assumption.
  - exists sa, (sb + b0)%Q. cbn [sumA sumB countA countB].
    rewrite ?inject_Z_succ. repeat split; try lra; assumption.
  - exists sa, sb. cbn [sumA sumB countA countB]. repeat split; try lra; assumption.
Qed.

Lemma fold_accumulate_percent (yr : string)
    (normed : list (list TrendDataPoint)) :
  Forall percent_series normed ->
  forall t, percent_totals t ->
  percent_totals (fold_left (accumulate yr) normed t).
Proof.
  induction 1 as [|series normed HS _ IH]; intros t Ht; simpl.
  - exact Ht.
  - apply IH, accumulate_percent; assumption.
Qed.

(** The rounded average of [n > 0] values in [0, 100] lies in
    [0, 100]. *)
Lemma rounded_average_between (s : Q) (n : nat) :
  (0 < n)%nat ->
  (0 <= s <= 100 * inject_Z (Z.of_nat n))%Q ->
  between 0 100 (Math_round (Fin s / of_nat n)).
Proof.
  intros Hn Hs. unfold of_nat. cbn [div].
  assert (Hpos : (0 < inject_Z (Z.of_nat n))%Q).
  { change 0%Q with (inject_Z 0). rewrite <- Zlt_Qlt. lia. }
  destruct (Qeq_bool (inject_Z (Z.of_nat n)) 0) eqn:Z.
  { apply Qeq_bool_iff in Z. exfalso. lra. }
  cbn [Math_round between].
  assert (H0 : (0 <= s / inject_Z (Z.of_nat n))%Q).
  { apply Qle_shift_div_l; [exact Hpos | lra]. }
  assert (H1 : (s / inject_Z (Z.of_nat n) <= 100)%Q).
  { apply Qle_shift_div_r; [exact Hpos | lra]. }
  revert H0 H1. generalize (s / inject_Z (Z.of_nat n))%Q. intros x H0 H1.
  split.
  - change 0%Q with (inject_Z (Qfloor (1 # 2))). rewrite <- Zle_Qle.
    apply Qfloor_resp_le. lra.
  - change 100%Q with (inject_Z (Qfloor (201 # 2))). rewrite <- Zle_Qle.
    apply Qfloor_resp_le. lra.
Qed.


End Composite.


(* ================================================================== *)
(** * Scores of a comparison *)
(* ================================================================== *)

Section Scores.

Import ComparisonEngine.

(** Every metric is won by [a], won by [b] or tied. *)
Lemma count_winner_partition (ms : list ComparisonMetric) :
  (count_winner a ms + count_winner b ms + count_winner tie ms
   = List.length ms)%nat.
Proof.
  unfold count_winner. induction ms as [|m ms IH]; [reflexivity|].
  cbn [filter]. destruct (winner m); cbn [List.length]; lia.
Qed.

Lemma compare_metrics_length (ra rb : CompanyRecord) :
  List.length (metrics (compare ra rb)) = 7%nat.
Proof. reflexivity. Qed.

(** C4.  For the result of [compare] on any two records: seven
    metrics; both scores non-negative; their sum at most 7; and
    [7 - score_a - score_b] is the number of tied metrics.  The
    scoreboard of the comparison view, fed with this result, shows 7 as
    the total of rounds and the number of tied metrics as ties. *)
Theorem compare_scores_and_ties (ra rb : CompanyRecord) :
  let r := compare ra rb in
  List.length (metrics r) = 7%nat
  /\ (0 <= score_a r)%Z /\ (0 <= score_b r)%Z
  /\ (score_a r + score_b r <= 7)%Z
  /\ (7 - score_a r - score_b r)%Z = Z.of_nat (count_winner tie (metrics r))
  /\ same_number
       (ComparisonView.QuickVerdict_total
          (score_number (score_a r)) (score_number (score_b r)))
       (Fin 7)
  /\ same_number
       (ComparisonView.VisualScoreboard_ties (of_nat (List.length (metrics r)))
          (score_number (score_a r)) (score_number (score_b r)))
       (of_nat (count_winner tie (metrics r))).
Proof.
  intro r.
  pose proof (count_winner_partition (metrics r)) as P.
  pose proof (compare_metrics_length ra rb) as L. fold r in L.
  assert (Ea : score_a r = Z.of_nat (count_winner a (metrics r)))
    by reflexivity.
  assert (Eb : score_b r = Z.of_nat (count_winner b (metrics r)))
    by reflexivity.
  rewrite L in P.
  assert (T : (7 - score_a r - score_b r)%Z
              = Z.of_nat (count_winner tie (metrics r))) by lia.
  repeat split; try lia.
  - unfold ComparisonView.QuickVerdict_total, score_number.
    cbn [add sub neg same_number].
    ring.
  - unfold ComparisonView.VisualScoreboard_ties, score_number, of_nat.
    cbn [add sub neg same_number].
    rewrite <- T, L. unfold Z.sub.
    rewrite !inject_Z_plus, !inject_Z_opp. reflexivity.
Qed.

End Scores.

(* ================================================================== *)
(** * Sorting *)
(* ================================================================== *)

Section SortFacts.

Context {A : Type}.
Variable cmp : A -> A -> comparison.

Lemma insert_perm (x : A) (l : list A) :
  Permutation (x :: l) (Arr.insert cmp x l).
Proof.
  induction l as [|y l IH]; cbn [Arr.insert].
  - apply Permutation_refl.
  - destruct (cmp y x); try apply Permutation_refl;
      (eapply perm_trans; [apply perm_swap | apply perm_skip, IH]).
Qed.

Lemma fold_insert_perm (l acc : list A) :
  Permutation (l ++ acc) (fold_left (fun acc x => Arr.insert cmp x acc) l acc).
Proof.
  revert acc. induction l as [|x l IH]; intro acc; cbn [fold_left app].
  - apply Permutation_refl.
  - eapply perm_trans; [|apply IH].
    eapply perm_trans; [apply Permutation_middle|].
    apply Permutation_app_head, insert_perm.
Qed.

(** [sort] rearranges: nothing is lost, nothing is added. *)
Lemma sort_perm (l : list A) : Permutation l (Arr.sort cmp l).
Proof.
  unfold Arr.sort. rewrite <- (app_nil_r l) at 1. apply fold_insert_perm.
Qed.

Hypothesis Hcmp : Arr.consistent cmp.

Lemma insert_in_order (x : A) (l : list A) :
  Arr.in_order cmp l -> Arr.in_order cmp (Arr.insert cmp x l).
Proof.
  destruct Hcmp as [Htot Htrans]. unfold Arr.in_order.
  induction 1 as [|y l Hl IH Hy]; cbn [Arr.insert].
  - repeat constructor.
  - destruct (cmp y x) eqn:E.
    + constructor; [exact IH|].
      apply Forall_forall. intros w Hw.
      apply (Permutation_in _ (Permutation_sym (insert_perm x l))) in Hw.
      destruct Hw as [<-|Hw]; [congruence|].
      rewrite Forall_forall in Hy. apply Hy, Hw.
    + constructor; [exact IH|].
      apply Forall_forall. intros w Hw.
      apply (Permutation_in _ (Permutation_sym (insert_perm x l))) in Hw.
      destruct Hw as [<-|Hw]; [congruence|].
      rewrite Forall_forall in Hy. apply Hy, Hw.
    + constructor; [constructor; assumption|].
      constructor; [apply Htot, E|].
      apply Forall_forall. intros w Hw.
      rewrite Forall_forall in Hy.
      apply (Htrans x y w); [apply Htot, E | apply Hy, Hw].
Qed.

Lemma fold_insert_in_order (l acc : list A) :
  Arr.in_order cmp acc ->
  Arr.in_order cmp (fold_left (fun acc x => Arr.insert cmp x acc) l acc).
Proof.
  revert acc. induction l as [|x l IH]; intros acc Hacc; cbn [fold_left].
  - exact Hacc.
  - apply IH, insert_in_order, Hacc.
Qed.

(** With a consistent comparator the result of [sort] is in order. *)
Lemma sort_in_order (l : list A) : Arr.in_order cmp (Arr.sort cmp l).
Proof.
  apply fold_insert_in_order. constructor.
Qed.

End SortFacts.

(** The code-unit order of strings is a consistent comparator. *)
Lemma string_compare_consistent : Arr.consistent String.compare.
Proof.
  split.
  - intros x y H. rewrite String.compare_antisym, H. discriminate.
  - intros x y z Hxy Hyz.
    destruct (String.compare x y) eqn:Exy; [| |congruence].
    + apply String.compare_eq_iff in Exy. subst y. exact Hyz.
    + destruct (String.compare y z) eqn:Eyz; [| |congruence].
      * apply String.compare_eq_iff in Eyz. subst z. rewrite Exy. discriminate.
      * apply String_as_OT.cmp_lt in Exy, Eyz.
        pose proof (String_as_OT.lt_trans _ _ _ Exy Eyz) as L.
        apply String_as_OT.cmp_lt in L. unfold String_as_OT.cmp in L.
        rewrite L. discriminate.
Qed.

Lemma in_order_NoDup_increasing (r : list string) :
  Arr.in_order String.compare r -> NoDup r -> Arr.increasing r.
Proof.
  unfold Arr.increasing, Arr.in_order.
  induction 1 as [|x r Hr IH Hx]; intro ND; [constructor|].
  inversion ND as [|? ? Hnin ND']; subst.
  constructor; [apply IH, ND'|].
  rewrite Forall_forall in *. intros y Hy.
  specialize (Hx y Hy).
  destruct (String.compare x y) eqn:E; [|reflexivity|congruence].
  apply String.compare_eq_iff in E. subst y. contradiction.
Qed.

(** Sorting distinct strings gives a strictly increasing list with
    the same elements. *)
Lemma sort_strings_increasing (l : list string) :
  NoDup l ->
  Arr.increasing (Arr.sort String.compare l)
  /\ (forall x, In x (Arr.sort String.compare l) <-> In x l).
Proof.
  intro ND.
  pose proof (sort_perm String.compare l) as P.
  pose proof (sort_in_order String.compare string_compare_consistent l) as S.
  split.
  - apply in_order_NoDup_increasing; [exact S|].
    eapply Permutation_NoDup; eassumption.
  - intro x. split; intro H.
    + eapply Permutation_in; [apply Permutation_sym, P | exact H].
    + eapply Permutation_in; [apply P | exact H].
Qed.

(* ================================================================== *)
(** * Financial performance charts: the sorted periods *)
(* ================================================================== *)

(** X1.  Whatever [localeCompare] answers, [MoneyTalk] keeps every
    financial period exactly once when it sorts them: the sorted
    sequence is a rearrangement of its input, and the income and profit
    series have one value per period. *)
Theorem MoneyTalk_sorted_rearranges
    (localeCompare : string -> string -> comparison)
    (financials : list MoneyTalk.FinancialYear) :
  Permutation financials (MoneyTalk.sorted localeCompare financials)
  /\ List.length (MoneyTalk.incomes localeCompare financials)
     = List.length financials
  /\ List.length (MoneyTalk.profits localeCompare financials)
     = List.length financials.
Proof.
  pose proof (sort_perm
    (fun x y => localeCompare (MoneyTalk.period x) (MoneyTalk.period y))
    financials) as P.
  split; [exact P|].
  unfold MoneyTalk.incomes, MoneyTalk.profits.
  rewrite !length_map. unfold MoneyTalk.sorted.
  split; symmetry; apply Permutation_length, P.
Qed.

(** X2.  When [localeCompare] is a consistent comparator, the periods
    that [MoneyTalk] charts are in order: no period comes after a later
    one. *)
Theorem MoneyTalk_sorted_in_order
    (localeCompare : string -> string -> comparison)
    (financials : list MoneyTalk.FinancialYear) :
  Arr.consistent localeCompare ->
  Arr.in_order
    (fun x y => localeCompare (MoneyTalk.period x) (MoneyTalk.period y))
    (MoneyTalk.sorted localeCompare financials).
Proof.
  intros [Htot Htrans]. apply sort_in_order. split.
  - intros x y. apply Htot.
  - intros x y z. apply Htrans.
Qed.

Lemma MoneyTalk_sorted_in_order_witness :
  Arr.in_order
    (fun x y => String.compare (MoneyTalk.period x) (MoneyTalk.period y))
    (MoneyTalk.sorted String.compare
       [ MoneyTalk.mkYear "2022" None (Some (Fin 50)) None None;
         MoneyTalk.mkYear "2020" None None None None;
         MoneyTalk.mkYear "2021" None (Some (Fin 100)) None None ]).
Proof.
  apply (MoneyTalk_sorted_in_order String.compare).
  exact string_compare_consistent.
Defined.

Lemma nonNull_all_present {A : Type} (d : A) (xs : list (option A)) :
  (forall x, In x xs -> x <> None) ->
  Arr.nonNull xs = map (fun x => x ?? d) xs.
Proof.
  induction xs as [|[v|] xs IH]; intro H; cbn [Arr.nonNull map nullish].
  - reflexivity.
  - f_equal. apply IH. intros x Hx. apply H. right. exact Hx.
  - exfalso. apply (H None); [left|]; reflexivity.
Qed.

(** X3.  On complete data the two trend badges agree: when every
    period reports its income, the badge of [MoneyTalk] reads what
    [CompareTrendBadge] reads on the same sorted incomes, as soon as
    there are two periods; with fewer, [CompareTrendBadge] shows nothing
    while [MoneyTalk] reads "Declining". *)
Theorem trend_badges_agree_on_complete_data
    (localeCompare : string -> string -> comparison)
    (financials : list MoneyTalk.FinancialYear) :
  (forall f, In f financials -> MoneyTalk.total_income f <> None) ->
  let sorted := MoneyTalk.sorted localeCompare financials in
  let badge := MoneyTalk.TrendBadge
                 (MoneyTalk.isGrowingIncome localeCompare financials) in
  ((2 <= List.length financials)%nat ->
   ComparisonView.CompareTrendBadge (map MoneyTalk.total_income sorted)
   = Some badge)
  /\ ((List.length financials < 2)%nat ->
      ComparisonView.CompareTrendBadge (map MoneyTalk.total_income sorted)
      = None
      /\ badge = "Declining").
Proof.
  intros Hall sorted badge.
  pose proof (sort_perm
    (fun x y => localeCompare (MoneyTalk.period x) (MoneyTalk.period y))
    financials) as P.
  assert (Li : List.length (MoneyTalk.incomes localeCompare financials)
               = List.length financials).
  { unfold MoneyTalk.incomes. rewrite length_map.
    symmetry. apply Permutation_length, P. }
  assert (E : Arr.nonNull (map MoneyTalk.total_income sorted)
              = MoneyTalk.incomes localeCompare financials).
  { rewrite (nonNull_all_present (Fin 0)).
    - unfold MoneyTalk.incomes. rewrite map_map. reflexivity.
    - intros x Hx. apply in_map_iff in Hx. destruct Hx as (f & <- & Hf).
      apply Hall. eapply Permutation_in; [apply Permutation_sym, P | exact Hf]. }
  unfold ComparisonView.CompareTrendBadge, badge, MoneyTalk.isGrowingIncome,
    MoneyTalk.isGrowing, MoneyTalk.TrendBadge.
  rewrite E, Li. split; intro Hlen.
  - destruct (Nat.ltb_spec (List.length financials) 2) as [L|L]; [lia|].
    destruct (Nat.leb_spec 2 (List.length financials)) as [L'|L']; [|lia].
    reflexivity.
  - destruct (Nat.ltb_spec (List.length financials) 2) as [L|L]; [|lia].
    destruct (Nat.leb_spec 2 (List.length financials)) as [L'|L']; [lia|].
    split; reflexivity.
Qed.

Lemma trend_badges_agree_on_complete_data_witness :
  ComparisonView.CompareTrendBadge
    (map MoneyTalk.total_income
       (MoneyTalk.sorted String.compare
          [ MoneyTalk.mkYear "2022" None (Some (Fin 50)) None None;
            MoneyTalk.mkYear "2021" None (Some (Fin 100)) None None ]))
  = Some (MoneyTalk.TrendBadge
            (MoneyTalk.isGrowingIncome String.compare
               [ MoneyTalk.mkYear "2022" None (Some (Fin 50)) None None;
                 MoneyTalk.mkYear "2021" None (Some (Fin 100)) None None ])).
Proof.
  apply (trend_badges_agree_on_complete_data String.compare).
  - intros f [<-|[<-|[]]]; discriminate.
  - simpl. lia.
Defined.

(* ================================================================== *)
(** * Maps, sets and the aligned series *)
(* ================================================================== *)

Section MapFacts.

Context {V : Type}.

Lemma Map_get_set (m : @JSMap.t V) (k k' : string) (v : V) :
  JSMap.get (JSMap.set m k v) k'
  = if String.eqb k k' then Some v else JSMap.get m k'.
Proof.
  unfold JSMap.get.
  induction m as [|[k0 v0] m IH]; cbn [JSMap.set find fst snd option_map].
  - destruct (String.eqb k k'); reflexivity.
  - destruct (String.eqb_spec k0 k) as [->|N]; cbn [find fst snd option_map].
    + destruct (String.eqb k k'); reflexivity.
    + destruct (String.eqb_spec k0 k') as [->|N'].
      * destruct (String.eqb_spec k k') as [->|]; [contradiction|reflexivity].
      * exact IH.
Qed.

Lemma Map_keys_set (m : @JSMap.t V) (k : string) (v : V) :
  (forall x, In x (JSMap.keys (JSMap.set m k v)) <-> x = k \/ In x (JSMap.keys m))
  /\ (NoDup (JSMap.keys m) -> NoDup (JSMap.keys (JSMap.set m k v))).
Proof.
  unfold JSMap.keys.
  induction m as [|[k0 v0] m [IHin IHnd]]; cbn [JSMap.set map fst].
  - split.
    + intro x. simpl. intuition.
    + intros _. repeat constructor. intros [].
  - destruct (String.eqb_spec k0 k) as [->|N]; cbn [map fst].
    + split; [|intro H; exact H].
      intro x. simpl. intuition.
    + split.
      * intro x. simpl. rewrite IHin. intuition.
      * intro ND. inversion ND as [|? ? Hnin ND']; subst.
        constructor; [|apply IHnd, ND'].
        rewrite IHin. intros [E|H]; [congruence | contradiction].
Qed.

Lemma find_snoc {A : Type} (f : A -> bool) (l : list A) (e : A) :
  find f (l ++ [e])
  = match find f l with
    | Some x => Some x
    | None => if f e then Some e else None
    end.
Proof.
  induction l as [|x l IH]; cbn [app find]; [reflexivity|].
  destruct (f x); [reflexivity | exact IH].
Qed.

Lemma Map_get_fold (entries : list (string * V)) (m : @JSMap.t V) (k : string) :
  JSMap.get (fold_left (fun m e => JSMap.set m (fst e) (snd e)) entries m) k
  = match find (fun e => String.eqb (fst e) k) (rev entries) with
    | Some e => Some (snd e)
    | None => JSMap.get m k
    end.
Proof.
  revert m. induction entries as [|e entries IH]; intro m; cbn [fold_left rev].
  - reflexivity.
  - rewrite IH, find_snoc, Map_get_set.
    destruct (find _ (rev entries)); [reflexivity|].
    destruct (String.eqb (fst e) k); reflexivity.
Qed.

(** Insert then look up: [new Map(entries).get(k)] is the value of
    the last entry with key [k], [undefined] when there is none. *)
Lemma Map_get_of_entries (entries : list (string * V)) (k : string) :
  JSMap.get (JSMap.of_entries entries) k
  = option_map snd (find (fun e => String.eqb (fst e) k) (rev entries)).
Proof.
  unfold JSMap.of_entries. rewrite Map_get_fold.
  destruct (find _ (rev entries)); reflexivity.
Qed.

Lemma Map_keys_fold (entries : list (string * V)) (m : @JSMap.t V) :
  (forall x, In x (JSMap.keys
               (fold_left (fun m e => JSMap.set m (fst e) (snd e)) entries m))
             <-> In x (map fst entries) \/ In x (JSMap.keys m))
  /\ (NoDup (JSMap.keys m) ->
      NoDup (JSMap.keys
               (fold_left (fun m e => JSMap.set m (fst e) (snd e)) entries m))).
Proof.
  revert m. induction entries as [|e entries IH]; intro m; cbn [fold_left map].
  - split; [intro x; simpl; tauto | auto].
  - destruct (IH (JSMap.set m (fst e) (snd e))) as [IHin IHnd].
    destruct (Map_keys_set m (fst e) (snd e)) as [Sin Snd].
    split.
    + intro x. rewrite IHin, Sin. simpl. intuition.
    + intro ND. apply IHnd, Snd, ND.
Qed.

(** The keys of [new Map(entries)] are the keys of the entries, each
    once. *)
Lemma Map_keys_of_entries (entries : list (string * V)) :
  (forall x, In x (JSMap.keys (JSMap.of_entries entries))
             <-> In x (map fst entries))
  /\ NoDup (JSMap.keys (JSMap.of_entries entries)).
Proof.
  unfold JSMap.of_entries.
  destruct (Map_keys_fold entries []) as [Hin Hnd]. split.
  - intro x. rewrite Hin. simpl. tauto.
  - apply Hnd. constructor.
Qed.

End MapFacts.

Lemma existsb_eqb_In (x : string) (seen : list string) :
  existsb (String.eqb x) seen = true <-> In x seen.
Proof.
  rewrite existsb_exists. split.
  - intros (y & Hy & E). apply String.eqb_eq in E. subst y. exact Hy.
  - intro H. exists x. split; [exact H | apply String.eqb_refl].
Qed.

(** [new Set] keeps each element once, and exactly the elements
    given. *)
Lemma set_of_spec (xs seen : list string) :
  (forall x, In x (ComparisonView.set_of seen xs) <-> In x xs /\ ~ In x seen)
  /\ NoDup (ComparisonView.set_of seen xs).
Proof.
  revert seen. induction xs as [|y xs IH]; intro seen;
    cbn [ComparisonView.set_of].
  - split; [intro x; simpl; tauto | constructor].
  - destruct (existsb (String.eqb y) seen) eqn:E.
    + apply existsb_eqb_In in E. destruct (IH seen) as [Hin Hnd].
      split; [|exact Hnd].
      intro x. rewrite Hin. simpl. split; [tauto|].
      intros [[<-|H] N]; [contradiction | tauto].
    + assert (Hy : ~ In y seen).
      { intro H. apply existsb_eqb_In in H. congruence. }
      destruct (IH (y :: seen)) as [Hin Hnd]. split.
      * intro x. simpl. rewrite Hin. simpl.
        destruct (String.string_dec y x) as [<-|N]; [tauto|]. tauto.
      * constructor; [|exact Hnd]. rewrite Hin. simpl. tauto.
Qed.

Section Aligned.

Import ComparisonView.

Lemma alignEntries_spec (entriesA entriesB : list (string * option number)) :
  Arr.increasing (map year (Trends.alignEntries entriesA entriesB))
  /\ (forall y, In y (map year (Trends.alignEntries entriesA entriesB))
                <-> In y (map fst entriesA) \/ In y (map fst entriesB))
  /\ (forall d, In d (Trends.alignEntries entriesA entriesB) ->
        valueA d = Trends.last_value entriesA (year d)
        /\ valueB d = Trends.last_value entriesB (year d)).
Proof.
  unfold Trends.alignEntries.
  set (mapA := JSMap.of_entries entriesA).
  set (mapB := JSMap.of_entries entriesB).
  set (ys := set_of [] (JSMap.keys mapA ++ JSMap.keys mapB)).
  cbv zeta.
  destruct (set_of_spec (JSMap.keys mapA ++ JSMap.keys mapB) []) as [Sin Snd].
  fold ys in Sin, Snd.
  destruct (sort_strings_increasing ys Snd) as [Inc Mem].
  rewrite map_map. cbn [year]. rewrite map_id.
  split; [exact Inc|]. split.
  - intro y. rewrite Mem, Sin, in_app_iff. unfold mapA, mapB.
    rewrite (proj1 (Map_keys_of_entries entriesA)).
    rewrite (proj1 (Map_keys_of_entries entriesB)).
    simpl. tauto.
  - intros d Hd. apply in_map_iff in Hd. destruct Hd as (y & <- & _).
    cbn [valueA valueB year]. unfold mapA, mapB, Trends.last_value.
    rewrite !Map_get_of_entries.
    split.
    + destruct (find _ (rev entriesA)) as [[k [v|]]|]; reflexivity.
    + destruct (find _ (rev entriesB)) as [[k [v|]]|]; reflexivity.
Qed.

(** X4.  The aligned series of two stocks ([alignFinancialData] and
    [alignRatioData]) list the years in strictly increasing order, each
    once, and exactly the years that one of the two stocks reports. *)
Theorem aligned_years
    (financialsA financialsB : list MoneyTalk.FinancialYear)
    (ratiosA ratiosB : list HealthCheck.RatioYear)
    (ffield : MoneyTalk.FinancialYear -> option number)
    (rfield : HealthCheck.RatioYear -> option number) :
  let fin := Trends.alignFinancialData financialsA financialsB ffield in
  let rat := Trends.alignRatioData ratiosA ratiosB rfield in
  Arr.increasing (map year fin)
  /\ (forall y, In y (map year fin)
                <-> In y (map MoneyTalk.period financialsA)
                    \/ In y (map MoneyTalk.period financialsB))
  /\ Arr.increasing (map year rat)
  /\ (forall y, In y (map year rat)
                <-> In y (map HealthCheck.year ratiosA)
                    \/ In y (map HealthCheck.year ratiosB)).
Proof.
  intros fin rat. unfold fin, rat, Trends.alignFinancialData,
    Trends.alignRatioData.
  split; [apply alignEntries_spec|]. split.
  - intro y. rewrite (proj1 (proj2 (alignEntries_spec _ _))).
    rewrite !map_map. cbn [fst]. tauto.
  - split; [apply alignEntries_spec|].
    intro y. rewrite (proj1 (proj2 (alignEntries_spec _ _))).
    rewrite !map_map. cbn [fst]. tauto.
Qed.

(** X5.  In an aligned series the value of a stock for a year is the
    figure of the last of its records for that year (a later record
    overrides an earlier one), and null when the stock has no record for
    the year or the record has no figure. *)
Theorem aligned_values
    (financialsA financialsB : list MoneyTalk.FinancialYear)
    (ratiosA ratiosB : list HealthCheck.RatioYear)
    (ffield : MoneyTalk.FinancialYear -> option number)
    (rfield : HealthCheck.RatioYear -> option number) :
  (forall d,
     In d (Trends.alignFinancialData financialsA financialsB ffield) ->
     valueA d
     = Trends.last_value
         (map (fun f => (MoneyTalk.period f, ffield f)) financialsA) (year d)
     /\ valueB d
        = Trends.last_value
            (map (fun f => (MoneyTalk.period f, ffield f)) financialsB) (year d))
  /\ (forall d,
        In d (Trends.alignRatioData ratiosA ratiosB rfield) ->
        valueA d
        = Trends.last_value
            (map (fun r => (HealthCheck.year r, rfield r)) ratiosA) (year d)
        /\ valueB d
           = Trends.last_value
               (map (fun r => (HealthCheck.year r, rfield r)) ratiosB) (year d)).
Proof.
  split; intros d Hd; apply alignEntries_spec, Hd.
Qed.

End Aligned.

(* ================================================================== *)
(** * The normalised series *)
(* ================================================================== *)

Section Normalised.

Import ComparisonView.

Lemma series_values_holds (data : list TrendDataPoint) (v : number) :
  In v (series_values data) <-> holds data v.
Proof.
  unfold series_values, holds. rewrite in_flat_map.
  split; intros (d & Hd & H); exists d; (split; [exact Hd|]).
  - apply nonNull_In in H. simpl in H.
    destruct H as [H|[H|[]]]; [left | right]; exact H.
  - apply nonNull_In. simpl. destruct H as [H|H]; auto.
Qed.

Lemma series_values_nil (data : list TrendDataPoint) :
  series_values data = [] <->
  (forall d, In d data -> valueA d = None /\ valueB d = None).
Proof.
  split.
  - intros E d Hd.
    assert (N : forall v, ~ holds data v).
    { intros v H. apply series_values_holds in H. rewrite E in H. exact H. }
    split.
    + destruct (valueA d) as [v|] eqn:EA; [|reflexivity].
      exfalso. apply (N v). exists d. auto.
    + destruct (valueB d) as [v|] eqn:EB; [|reflexivity].
      exfalso. apply (N v). exists d. auto.
  - intro H. destruct (series_values data) as [|v vs] eqn:E; [reflexivity|].
    assert (Hv : holds data v).
    { apply series_values_holds. rewrite E. left. reflexivity. }
    destruct Hv as (d & Hd & Hv). destruct (H d Hd) as [HA HB].
    destruct Hv; congruence.
Qed.

Lemma normaliseSeries_cases (data : list TrendDataPoint) :
  ((forall d, In d data -> valueA d = None /\ valueB d = None) ->
   normaliseSeries data = [])
  /\ ((exists v, holds data v) ->
      map year (normaliseSeries data) = map year data
      /\ map (fun d => (is_null (valueA d), is_null (valueB d)))
           (normaliseSeries data)
         = map (fun d => (is_null (valueA d), is_null (valueB d))) data).
Proof.
  unfold normaliseSeries. fold (series_values data). split.
  - intro H. apply series_values_nil in H. rewrite H. reflexivity.
  - intros (v & Hv). apply series_values_holds in Hv.
    destruct (series_values data) as [|w ws]; [contradiction|].
    cbn [List.length Nat.eqb]. rewrite !map_map. cbn [year valueA valueB].
    split; [reflexivity|].
    apply map_ext. intro d.
    destruct (valueA d), (valueB d); reflexivity.
Qed.

(** X6.  [normaliseSeries] returns the empty series when no value is
    present (in particular on the empty series); otherwise it keeps
    every point, with its year, and a value stays null exactly where it
    was null. *)
Theorem normaliseSeries_shape (data : list TrendDataPoint) :
  ((forall d, In d data -> valueA d = None /\ valueB d = None) ->
   normaliseSeries data = [])
  /\ ((exists v, holds data v) ->
      map year (normaliseSeries data) = map year data
      /\ map (fun d => (is_null (valueA d), is_null (valueB d)))
           (normaliseSeries data)
         = map (fun d => (is_null (valueA d), is_null (valueB d))) data).
Proof.
  unfold normaliseSeries. fold (series_values data). split.
  - intro H. apply series_values_nil in H. rewrite H. reflexivity.
  - intros (v & Hv). apply series_values_holds in Hv.
    destruct (series_values data) as [|w ws]; [contradiction|].
    cbn [List.length Nat.eqb]. rewrite !map_map. cbn [year valueA valueB].
    split; [reflexivity|].
    apply map_ext. intro d.
    destruct (valueA d), (valueB d); reflexivity.
Qed.

Lemma normaliseSeries_shape_witness :
  normaliseSeries [ mkPoint "2021" None None ] = []
  /\ map year (normaliseSeries [ mkPoint "2021" None (Some (Fin 4));
                                 mkPoint "2022" (Some (Fin 9)) None ])
     = ["2021"; "2022"].
Proof.
  split.
  - apply (normaliseSeries_shape [ mkPoint "2021" None None ]).
    intros d [<-|[]]. split; reflexivity.
  - apply (normaliseSeries_shape [ mkPoint "2021" None (Some (Fin 4));
                                   mkPoint "2022" (Some (Fin 9)) None ]).
    exists (Fin 4), (mkPoint "2021" None (Some (Fin 4))).
    split; [left; reflexivity | right; reflexivity].
Defined.

(** The least and the greatest of finitely many finite numbers are
    among them. *)
Lemma Math_min_list_attained (l : list number) :
  Math_min_list l = NaN \/ Math_min_list l = PosInf \/ In (Math_min_list l) l.
Proof.
  induction l as [|x l IH]; [right; left; reflexivity|].
  change (Math_min_list (x :: l)) with (Math_min x (Math_min_list l)).
  destruct IH as [E|[E|H]].
  - rewrite E. destruct x; auto.
  - rewrite E. destruct x; cbn; auto.
  - unfold Math_min.
    destruct x; auto; destruct (Math_min_list l) eqn:E; auto;
      match goal with
      | |- context [if ?c then _ else _] =>
          destruct c; right; right; [left; reflexivity | right; exact H]
      end.
Qed.

Lemma Math_max_list_attained (l : list number) :
  Math_max_list l = NaN \/ Math_max_list l = NegInf \/ In (Math_max_list l) l.
Proof.
  induction l as [|x l IH]; [right; left; reflexivity|].
  change (Math_max_list (x :: l)) with (Math_max x (Math_max_list l)).
  destruct IH as [E|[E|H]].
  - rewrite E. destruct x; auto.
  - rewrite E. destruct x; cbn; auto.
  - unfold Math_max.
    destruct x; auto; destruct (Math_max_list l) eqn:E; auto;
      match goal with
      | |- context [if ?c then _ else _] =>
          destruct c; right; right; [right; exact H | left; reflexivity]
      end.
Qed.

(** The scale of [normaliseSeries] between a minimum [m] and a maximum
    [M]: a division by a positive range. *)
Lemma scale_value (m M : Q) :
  (m <= M)%Q ->
  exists r : Q,
    (0 < r)%Q
    /\ ((M + - m == 0)%Q /\ r = 1%Q \/ ~ (M + - m == 0)%Q /\ r = (M + - m)%Q)
    /\ forall q,
         ((Fin q - Fin m) / or_else (Fin M - Fin m) (Fin 1)) * Fin 100
         = Fin ((q + - m) / r * 100).
Proof.
  intro HmM. cbn [sub add neg]. unfold or_else, truthy.
  destruct (Qeq_bool (M + - m) 0) eqn:Z; cbn [negb].
  - apply Qeq_bool_iff in Z. exists 1%Q.
    split; [reflexivity|]. split; [left; auto|]. reflexivity.
  - pose proof Z as Z'. apply Qeq_bool_false in Z'.
    exists (M + - m)%Q. split; [|split; [right; auto|]].
    + destruct (Qlt_le_dec 0 (M + - m)) as [L|L]; [exact L|].
      exfalso. apply Z'. lra.
    + intro q. cbn [div]. rewrite Z. reflexivity.
Qed.


End Normalised.


(* ================================================================== *)
(** * The composite index: years, emptiness, whole scores *)
(* ================================================================== *)

Section CompositeFacts.

Import ComparisonView.

Lemma normaliseSeries_nonempty (series : list TrendDataPoint) :
  normaliseSeries series <> [] <-> exists v, holds series v.
Proof.
  destruct (normaliseSeries_cases series) as [Hnil Hshape]. split.
  - intro N.
    destruct (series_values series) as [|v vs] eqn:E.
    + exfalso. apply N, Hnil, series_values_nil, E.
    + exists v. apply series_values_holds. rewrite E. left. reflexivity.
  - intros (v & d & Hd & Hv) E.
    destruct (Hshape (ex_intro _ v (ex_intro _ d (conj Hd Hv)))) as [Hy _].
    rewrite E in Hy. destruct series; [contradiction | discriminate].
Qed.

Lemma normed_In (allSeries : list (list TrendDataPoint))
    (s : list TrendDataPoint) :
  In s (filter (fun s => (0 <? List.length s)%nat)
          (map normaliseSeries allSeries))
  <-> exists series, In series allSeries /\ (exists v, holds series v)
                     /\ s = normaliseSeries series.
Proof.
  rewrite filter_In, in_map_iff. split.
  - intros ((series & <- & Hs) & L). exists series.
    split; [exact Hs|]. split; [|reflexivity].
    apply normaliseSeries_nonempty. intro E. rewrite E in L. discriminate.
  - intros (series & Hs & Hv & ->). split; [exists series; auto|].
    apply normaliseSeries_nonempty in Hv.
    destruct (normaliseSeries series); [contradiction | reflexivity].
Qed.

(** X8.  [buildCompositeIndex] lists the years in strictly increasing
    order, each once; they are exactly the years of the series that
    have at least one value; and the index is empty exactly when no
    series has any value. *)
Theorem composite_years (allSeries : list (list TrendDataPoint)) :
  let out := buildCompositeIndex allSeries in
  Arr.increasing (map cyear out)
  /\ (forall y, In y (map cyear out) <->
        exists series, In series allSeries /\ (exists v, holds series v)
                       /\ In y (map year series))
  /\ (out = [] <->
      forall series d, In series allSeries -> In d series ->
        valueA d = None /\ valueB d = None).
Proof.
  intro out.
  assert (H12 : Arr.increasing (map cyear out)
    /\ (forall y, In y (map cyear out) <->
          exists series, In series allSeries /\ (exists v, holds series v)
                         /\ In y (map year series))).
  { unfold out, buildCompositeIndex.
    set (normed := filter _ (map normaliseSeries allSeries)).
    cbv zeta.
    assert (Hn : forall s, In s normed <->
              exists series, In series allSeries /\ (exists v, holds series v)
                             /\ s = normaliseSeries series)
      by (intro s; apply normed_In).
    destruct (List.length normed =? 0)%nat eqn:L.
    - split; [constructor|].
      intro y. split; [intros []|].
      intros (series & Hs & Hv & _). exfalso.
      assert (Hin : In (normaliseSeries series) normed)
        by (apply Hn; exists series; auto).
      destruct normed; [exact Hin | discriminate].
    - rewrite map_map. cbn [cyear]. rewrite map_id.
      destruct (set_of_spec (flat_map (map year) normed) []) as [Sin Snd].
      destruct (sort_strings_increasing _ Snd) as [Inc Mem].
      split; [exact Inc|].
      intro y. rewrite Mem, Sin, in_flat_map. split.
      + intros ((s & Hs & Hy) & _). apply Hn in Hs.
        destruct Hs as (series & Hser & Hv & ->). exists series.
        split; [exact Hser|]. split; [exact Hv|].
        rewrite <- (proj1 (proj2 (normaliseSeries_cases series) Hv)). exact Hy.
      + intros (series & Hser & Hv & Hy). split; [|intros []].
        exists (normaliseSeries series). split.
        * apply Hn. exists series. auto.
        * rewrite (proj1 (proj2 (normaliseSeries_cases series) Hv)). exact Hy. }
  destruct H12 as [H1 H2]. split; [exact H1|]. split; [exact H2|].
  split.
  - intros E series d Hs Hd.
    assert (N : forall v, ~ holds series v).
    { intros v Hv. destruct Hv as (d0 & Hd0 & Hv0).
      assert (Hy : In (year d0) (map cyear out)).
      { apply H2. exists series. split; [exact Hs|]. split.
        - exists v, d0. auto.
        - apply in_map, Hd0. }
      rewrite E in Hy. exact Hy. }
    split.
    + destruct (valueA d) as [v|] eqn:EA; [|reflexivity].
      exfalso. apply (N v). exists d. auto.
    + destruct (valueB d) as [v|] eqn:EB; [|reflexivity].
      exfalso. apply (N v). exists d. auto.
  - intro Hnone. destruct out as [|p ps] eqn:E; [reflexivity|]. exfalso.
    assert (Hy : In (cyear p) (map cyear (p :: ps))) by (left; reflexivity).
    apply H2 in Hy. destruct Hy as (series & Hs & (v & d & Hd & Hv) & _).
    destruct (Hnone series d Hs Hd) as [HA HB].
    destruct Hv; congruence.
Qed.

Lemma accumulate_counts (yr : string) (t : Totals)
    (series : list TrendDataPoint) :
  (countA (accumulate yr t series) <= S (countA t))%nat
  /\ (countB (accumulate yr t series) <= S (countB t))%nat.
Proof.
  unfold accumulate.
  destruct (find _ series) as [[y [va|] [vb|]]|]; cbn; lia.
Qed.

Lemma fold_accumulate_counts (yr : string)
    (normed : list (list TrendDataPoint)) (t : Totals) :
  (countA (fold_left (accumulate yr) normed t)
   <= countA t + List.length normed)%nat
  /\ (countB (fold_left (accumulate yr) normed t)
      <= countB t + List.length normed)%nat.
Proof.
  revert t. induction normed as [|s normed IH]; intro t; cbn [fold_left List.length].
  - lia.
  - destruct (IH (accumulate yr t s)) as [IA IB].
    destruct (accumulate_counts yr t s) as [CA CB]. lia.
Qed.

Lemma rounded_average_whole (s : Q) (n : nat) :
  (0 < n)%nat -> exists z : Z, Math_round (Fin s / of_nat n) = Fin (inject_Z z).
Proof.
  intro Hn. unfold of_nat. cbn [div].
  destruct (Qeq_bool (inject_Z (Z.of_nat n)) 0) eqn:Z.
  { apply Qeq_bool_iff in Z. exfalso.
    assert (Hpos : (0 < inject_Z (Z.of_nat n))%Q).
    { change 0%Q with (inject_Z 0). rewrite <- Zlt_Qlt. lia. }
    lra. }
  cbn [Math_round]. eexists. reflexivity.
Qed.


End CompositeFacts.


(* ================================================================== *)
(** * From the stock data to the performance index *)
(* ================================================================== *)

Section EndToEnd.

Import ComparisonView.

Lemma last_value_json (entries : list (string * option number)) (k : string) :
  (forall e, In e entries -> json_number (snd e)) ->
  json_number (Trends.last_value entries k).
Proof.
  intro H. unfold Trends.last_value.
  destruct (find _ (rev entries)) as [e|] eqn:F; [|exact I].
  apply find_some in F. destruct F as [Hin _].
  apply H, in_rev, Hin.
Qed.

Lemma alignEntries_json (entriesA entriesB : list (string * option number)) :
  (forall e, In e entriesA -> json_number (snd e)) ->
  (forall e, In e entriesB -> json_number (snd e)) ->
  json_series (Trends.alignEntries entriesA entriesB).
Proof.
  intros HA HB d Hd.
  destruct (proj2 (proj2 (alignEntries_spec entriesA entriesB)) d Hd)
    as [-> ->].
  split; apply last_value_json; assumption.
Qed.

Lemma allSeries_json (stockA stockB : Trends.StockData) :
  Trends.json_stock stockA -> Trends.json_stock stockB ->
  forall series, In series (Trends.allSeries stockA stockB) ->
  json_series series.
Proof.
  intros [FA RA] [FB RB] series Hs.
  unfold Trends.allSeries in Hs. cbv zeta in Hs. apply in_app_iff in Hs.
  destruct Hs as [Hs|Hs].
  - destruct (_ || _) in Hs; [|contradiction].
    destruct Hs as [<-|[<-|[<-|[]]]];
      apply alignEntries_json; intros e He;
      apply in_map_iff in He; destruct He as (f & <- & Hf); cbn [snd];
      first [apply (FA f Hf) | apply (FB f Hf)].
  - destruct (_ || _) in Hs; [|contradiction].
    destruct Hs as [<-|[<-|[]]];
      apply alignEntries_json; intros e He;
      apply in_map_iff in He; destruct He as (r & <- & Hr); cbn [snd];
      first [apply (RA r Hr) | apply (RB r Hr)].
Qed.

(** Scores built from series of JSON numbers lie in [0, 100]. *)
Lemma composite_between (allSeries : list (list TrendDataPoint)) :
  (forall series, In series allSeries -> json_series series) ->
  forall p, In p (buildCompositeIndex allSeries) ->
  between 0 100 (scoreA p) /\ between 0 100 (scoreB p).
Proof.
  intros HJ p Hp. unfold buildCompositeIndex in Hp.
  set (normed := filter _ (map normaliseSeries allSeries)) in Hp.
  cbv zeta in Hp.
  destruct (List.length normed =? 0)%nat; [contradiction|].
  assert (HP : Forall percent_series normed).
  { apply Forall_forall. intros x Hx. apply normed_In in Hx.
    destruct Hx as (series & Hs & _ & ->).
    apply normaliseSeries_percent, HJ, Hs. }
  apply in_map_iff in Hp. destruct Hp as (yr & <- & _).
  cbn [scoreA scoreB].
  assert (H0 : percent_totals (mkTotals (Fin 0) 0 (Fin 0) 0)).
  { exists 0%Q, 0%Q. cbn. repeat split; discriminate. }
  destruct (fold_accumulate_percent yr normed HP _ H0)
    as (sa & sb & Ea & Eb & Ha & Hb).
  rewrite Ea, Eb. split.
  - destruct (0 <? countA _)%nat eqn:C.
    + apply Nat.ltb_lt in C. apply rounded_average_between; assumption.
    + cbn. split; discriminate.
  - destruct (0 <? countB _)%nat eqn:C.
    + apply Nat.ltb_lt in C. apply rounded_average_between; assumption.
    + cbn. split; discriminate.
Qed.


End EndToEnd.


(* ================================================================== *)
(** * Verdict, scoreboard and grouped cards *)
(* ================================================================== *)

Section ScoreboardFacts.

Import Scoreboard.

(** X11.  For finite scores exactly one of the three verdict flags of
    [ComparisonView] holds, and [QuickVerdict] names a winner exactly
    when the scores differ: the side with the larger score, whose score
    is the one displayed; on a tie there is no winner symbol. *)
Theorem verdict_flags (symA symB : string) (scoreA scoreB : number) :
  finite scoreA -> finite scoreB ->
  ((isWinnerA scoreA scoreB = true /\ isWinnerB scoreA scoreB = false
    /\ isTie scoreA scoreB = false
    /\ winnerSym symA symB scoreA scoreB = Some symA
    /\ winnerScore scoreA scoreB = scoreA)
   \/ (isWinnerA scoreA scoreB = false /\ isWinnerB scoreA scoreB = true
       /\ isTie scoreA scoreB = false
       /\ winnerSym symA symB scoreA scoreB = Some symB
       /\ winnerScore scoreA scoreB = scoreB)
   \/ (isWinnerA scoreA scoreB = false /\ isWinnerB scoreA scoreB = false
       /\ isTie scoreA scoreB = true
       /\ winnerSym symA symB scoreA scoreB = None))
  /\ winnerScore scoreA scoreB = Math_max scoreA scoreB.
Proof.
  destruct scoreA as [| |x|]; try contradiction.
  destruct scoreB as [| |y|]; try contradiction.
  intros _ _.
  unfold winnerSym, winnerScore, isWinnerA, isWinnerB, isTie, strict_eq,
    Math_max, gt, lt, le.
  qcases;
    try (exfalso; lra);
    try (exfalso; match goal with H : ~ (_ == _)%Q |- _ => apply H; lra end);
    (split; [|reflexivity]); tauto.
Qed.

Lemma verdict_flags_witness :
  winnerSym "ENGRO" "LUCK" (Fin 4) (Fin 1) = Some "ENGRO"
  /\ winnerSym "ENGRO" "LUCK" (Fin 3) (Fin 3) = None.
Proof.
  split.
  - destruct (verdict_flags "ENGRO" "LUCK" (Fin 4) (Fin 1) I I)
      as [[(_ & _ & _ & H & _)|[(H & _)|(_ & _ & H & _)]] _];
      [exact H | discriminate H | discriminate H].
  - destruct (verdict_flags "ENGRO" "LUCK" (Fin 3) (Fin 3) I I)
      as [[(H & _)|[(_ & H & _)|(_ & _ & _ & H)]] _];
      [discriminate H | discriminate H | exact H].
Defined.



Section Names.

Variable parseFloat : string -> number.
Variable Number_toString : number -> string.

Lemma won_from_count (i : nat)
    (metrics : list ComparisonEngine.ComparisonMetric)
    (side : ComparisonEngine.Winner) :
  List.length
    (Arr.nonNull (won_from parseFloat Number_toString i metrics side))
  = ComparisonEngine.count_winner side metrics.
Proof.
  unfold ComparisonEngine.count_winner.
  revert i. induction metrics as [|m ms IH]; intro i; [reflexivity|].
  cbn [won_from filter].
  destruct (ComparisonEngine.winner m), side;
    cbn [Arr.nonNull List.length]; rewrite IH; reflexivity.
Qed.

(** X13.  The list of rounds that [getWonRoundNames] gives for a side
    has one name per metric won by that side; for the result of
    [compare] its length is the score of the side, so the lists shown
    under the scoreboard match the scores. *)
Theorem won_round_names_match_scores
    (metrics : list ComparisonEngine.ComparisonMetric)
    (side : ComparisonEngine.Winner) :
  List.length (getWonRoundNames parseFloat Number_toString metrics side)
  = ComparisonEngine.count_winner side metrics
  /\ (forall ra rb,
        let r := ComparisonEngine.compare ra rb in
        Z.of_nat (List.length
                    (getWonRoundNames parseFloat Number_toString
                       (ComparisonEngine.metrics r) ComparisonEngine.a))
        = ComparisonEngine.score_a r
        /\ Z.of_nat (List.length
                       (getWonRoundNames parseFloat Number_toString
                          (ComparisonEngine.metrics r) ComparisonEngine.b))
           = ComparisonEngine.score_b r).
Proof.
  split; [apply won_from_count|].
  intros ra rb r. unfold getWonRoundNames. rewrite !won_from_count.
  split; reflexivity.
Qed.

End Names.

(** X14.  Whatever the list of metrics, the four category sections of
    [ComparisonView] together render one card for each of the first
    seven metrics, in order, each with its own index, and no other
    card. *)
Theorem cards_cover_first_seven {M : Type} (metrics : list M) :
  cards metrics = indexed_from 0 (firstn 7 metrics).
Proof.
  do 7 (destruct metrics as [|? metrics]; [reflexivity|]).
  reflexivity.
Qed.

End ScoreboardFacts.

(* ================================================================== *)
(** * Health check: the gauge, the figure and the arrow *)
(* ================================================================== *)

(** As [qcases], for nested [Math.min] and [Math.max]: reduces after
    each test is decided. *)
Ltac qdeep :=
  repeat (cbn [Math_min Math_max le lt gt ge between same_number];
          match goal with
          | |- context [Qle_bool ?x ?y] =>
              let E := fresh "E" in
              destruct (Qle_bool x y) eqn:E;
              [apply Qle_bool_iff in E | apply Qle_bool_false in E]
          | |- context [Qltb ?x ?y] =>
              let E := fresh "E" in
              destruct (Qltb x y) eqn:E;
              [apply Qltb_true in E | apply Qltb_false in E]
          end);
  cbn [Math_min Math_max le lt gt ge between same_number].



(** X16.  The figure under the gauge and the badge beside it say "N/A"
    together: for a JSON ratio, either the ratio is absent or not
    positive, the figure is "N/A" and so is the label of the badge, or
    the ratio is positive, the figure is the ratio printed with one
    decimal and the badge names a band. *)
Theorem pe_figure_matches_badge
    (toFixed : number -> nat -> string) (pe : option number) :
  json_number pe ->
  (HealthCheck.peFigure toFixed pe = "N/A"
   /\ HealthCheck.label (HealthCheck.getPERating pe) = "N/A"
   /\ (pe = None \/ exists q, pe = Some (Fin q) /\ (q <= 0)%Q))
  \/ (exists q, pe = Some (Fin q) /\ (0 < q)%Q
      /\ HealthCheck.peFigure toFixed pe = toFixed (Fin q) 1%nat
      /\ HealthCheck.label (HealthCheck.getPERating pe) <> "N/A").
Proof.
  intro J. unfold HealthCheck.peFigure, HealthCheck.peRatio,
    HealthCheck.getPERating.
  destruct pe as [[| |q|]|]; try contradiction; cbn [nullish gt lt le].
  - destruct (Qltb 0 q) eqn:E.
    + apply Qltb_true in E. right. exists q.
      split; [reflexivity|]. split; [exact E|]. split; [reflexivity|].
      qcases; try (exfalso; lra); discriminate.
    + apply Qltb_false in E. left.
      split; [reflexivity|]. split.
      * qcases; try reflexivity; exfalso; lra.
      * right. exists q. auto.
  - left. repeat split. left. reflexivity.
Qed.

Lemma pe_figure_matches_badge_witness :
  HealthCheck.peFigure (fun n _ => Builtins.Number_toString_plain n)
    (Some (Fin (-3))) = "N/A"
  /\ HealthCheck.label (HealthCheck.getPERating (Some (Fin (-3)))) = "N/A".
Proof.
  destruct (pe_figure_matches_badge
              (fun n _ => Builtins.Number_toString_plain n)
              (Some (Fin (-3))) I)
    as [(H1 & H2 & _)|(q & E & Hq & _)].
  - split; assumption.
  - exfalso. injection E as <-. revert Hq. discriminate.
Defined.

(** X17.  In the EPS-growth block the arrow and the caption agree,
    for every number: the arrow points down exactly when the caption
    says that the profit is shrinking. *)
Theorem eps_arrow_matches_caption (g : number) :
  HealthCheck.epsArrowUp g = false
  <-> HealthCheck.epsGrowthCaption g
      = "Per-share profit is shrinking. This needs watching.".
Proof.
  unfold HealthCheck.epsArrowUp, HealthCheck.epsGrowthCaption, ge, le.
  destruct g as [| |q|]; cbn.
  - tauto.
  - tauto.
  - qcases; split; intro H; try reflexivity; try discriminate;
      exfalso; lra.
  - split; discriminate.
Qed.

(** X18.  The net-profit-margin bar never leaves its track: for a
    finite margin its width lies in [0, 100], and it is the margin
    itself when the margin is between 0 and 100. *)
Theorem margin_width (m : Q) :
  between 0 100 (HealthCheck.marginWidth (Fin m))
  /\ ((0 <= m <= 100)%Q ->
      same_number (HealthCheck.marginWidth (Fin m)) (Fin m))
  /\ ((m < 0)%Q -> HealthCheck.marginWidth (Fin m) = Fin 0)
  /\ ((100 < m)%Q -> HealthCheck.marginWidth (Fin m) = Fin 100).
Proof.
  unfold HealthCheck.marginWidth.
  split; [qdeep; split; lra|].
  repeat split; intro H; qdeep; try reflexivity; lra.
Qed.

Lemma margin_width_witness :
  same_number (HealthCheck.marginWidth (Fin 18)) (Fin 18)
  /\ HealthCheck.marginWidth (Fin (-6)) = Fin 0
  /\ HealthCheck.marginWidth (Fin 140) = Fin 100.
Proof.
  split; [|split].
  - apply (margin_width 18). split; discriminate.
  - apply (margin_width (-6)). reflexivity.
  - apply (margin_width 140). reflexivity.
Defined.

(* ================================================================== *)
(** * Final verdict: health badge and risk meter *)
(* ================================================================== *)

(** X19.  [getHealthConfig] is case-insensitive: a letter-casing
    variant of a health label gets the same badge; in any casing
    "Strong" gets the green check, "At Risk" the red alert and
    "Moderate" the amber question mark. *)
Theorem health_config_case_insensitive (s s' : string) :
  Str.casing_variant s s' ->
  FinalVerdict.getHealthConfig s' = FinalVerdict.getHealthConfig s
  /\ (s = "Strong" ->
      FinalVerdict.icon (FinalVerdict.getHealthConfig s') = "ShieldCheck"
      /\ FinalVerdict.health_color (FinalVerdict.getHealthConfig s') = "#4BC232")
  /\ (s = "At Risk" ->
      FinalVerdict.icon (FinalVerdict.getHealthConfig s') = "ShieldAlert"
      /\ FinalVerdict.health_color (FinalVerdict.getHealthConfig s') = "#ef4444")
  /\ (s = "Moderate" ->
      FinalVerdict.icon (FinalVerdict.getHealthConfig s') = "ShieldQuestion"
      /\ FinalVerdict.health_color (FinalVerdict.getHealthConfig s') = "#d97706").
Proof.
  intro H. apply casing_variant_toLowerCase in H.
  unfold FinalVerdict.getHealthConfig. rewrite <- H.
  split; [reflexivity|].
  split; [|split]; intros ->; split; reflexivity.
Qed.

Lemma health_config_case_insensitive_witness :
  FinalVerdict.icon (FinalVerdict.getHealthConfig "AT RISK") = "ShieldAlert"
  /\ FinalVerdict.health_color (FinalVerdict.getHealthConfig "AT RISK")
     = "#ef4444".
Proof.
  assert (H : Str.casing_variant "At Risk" "AT RISK")
    by (repeat constructor; unfold Str.same_letter; cbn; tauto).
  apply (health_config_case_insensitive "At Risk" "AT RISK" H). reflexivity.
Defined.

(** X20.  When the two risk views agree.  The badge of the comparison
    view ([rateRisk]) and the risk meter of the final verdict
    ([getRiskConfig]) show the same label for a risk level exactly when,
    in lower case, it is "low", or it is "moderate", or it contains
    "high" or "very" and does not contain "low".  So an unrecognised
    level (the empty one, say) is High Risk in one view and Medium Risk
    in the other, and "Very Low" is High Risk in one and Low Risk in the
    other. *)
Theorem risk_views_agree_iff
    (Number_toString : number -> string) (s : string) :
  let r := Str.toLowerCase s in
  ComparisonView.label (ComparisonView.rateRisk Number_toString (VStr s))
  = FinalVerdict.label (FinalVerdict.getRiskConfig s)
  <-> r = "low" \/ r = "moderate"
      \/ (Str.includes r "low" = false
          /\ (Str.includes r "high" = true \/ Str.includes r "very" = true)).
Proof.
  intro r. unfold ComparisonView.rateRisk, FinalVerdict.getRiskConfig.
  cbn [ComparisonView.String_of]. fold r.
  destruct (String.eqb_spec r "low") as [->|Nlow].
  { cbn. tauto. }
  destruct (String.eqb_spec r "moderate") as [->|Nmod].
  { cbn. tauto. }
  destruct (Str.includes r "low") eqn:L.
  { cbn. split; [discriminate|].
    intros [E|[E|[E _]]]; [contradiction | contradiction | discriminate]. }
  destruct (Str.includes r "high") eqn:Hh; cbn [orb].
  { cbn. split; [intros _|reflexivity]. right. right. auto. }
  destruct (Str.includes r "very") eqn:Hv.
  { cbn. split; [intros _|reflexivity]. right. right. auto. }
  cbn. split; [discriminate|].
  intros [E|[E|[_ [E|E]]]]; [contradiction | contradiction | discriminate
                            | discriminate].
Qed.

(* ================================================================== *)
(** * Company overview: position in the 52-week range *)
(* ================================================================== *)





(** X23.  The website entry of the company card links to an absolute
    address: whenever a link is rendered it starts with "http"; it is
    the website itself when that already does, and the website after
    "https://" otherwise.  No link is rendered without a website. *)
Theorem website_href (website : option string) :
  (forall href, CompanyOverview.websiteHref website = Some href ->
     String.prefix "http" href = true
     /\ exists w, website = Some w
                  /\ (href = w \/ href = "https://" ++ w))
  /\ (CompanyOverview.websiteHref website = None
      <-> website = None \/ website = Some "").
Proof.
  unfold CompanyOverview.websiteHref.
  destruct website as [[|ch w]|].
  - split; [discriminate|]. split; auto.
  - split.
    + destruct (String.prefix "http" (String ch w)) eqn:P;
        intros href E; injection E as <-.
      * split; [exact P|]. eexists. split; [reflexivity | left; reflexivity].
      * split; [reflexivity|]. eexists. split; [reflexivity | right; reflexivity].
    + split; [discriminate | intros [E|E]; discriminate].
  - split; [discriminate|]. split; auto.
Qed.

Lemma website_href_witness :
  String.prefix "http" "https://www.psx.com.pk" = true
  /\ exists w, Some "www.psx.com.pk" = Some w
               /\ ("https://www.psx.com.pk" = w
                   \/ "https://www.psx.com.pk" = "https://" ++ w).
Proof.
  apply (proj1 (website_href (Some "www.psx.com.pk"))). reflexivity.
Defined.

(* ================================================================== *)
(** * The numeric badges follow the values *)
(* ================================================================== *)

Section BadgeOrder.

Import ComparisonView.

Variable parseFloat : string -> number.
Variable Number_toString : number -> string.

(** X24.  The badges of the numeric metrics follow the values.  For
    net profit margin, EPS growth, one-year price change and free float
    (metrics 1 to 4) a larger value never gets a worse colour; for the
    price/earnings ratio (metric 0) a larger value never gets a better
    one. *)
Theorem badge_quality_monotone (idx : nat) (x y : Q) (rx ry : QualityRating) :
  (x <= y)%Q ->
  rate_metric parseFloat Number_toString idx (VNum (Fin x)) = Some rx ->
  rate_metric parseFloat Number_toString idx (VNum (Fin y)) = Some ry ->
  ((1 <= idx <= 4)%nat -> (quality (color rx) <= quality (color ry))%nat)
  /\ (idx = 0%nat -> (quality (color ry) <= quality (color rx))%nat).
Proof.
  intros Hxy Hx Hy. unfold rate_metric in Hx, Hy.
  destruct idx as [|[|[|[|[|idx]]]]];
    try (split; intro; lia);
    cbn in Hx, Hy; injection Hx as <-; injection Hy as <-;
    (split; [intro Hi | intro Hi]; try lia; try discriminate);
    unfold ge, le, lt; qcases; try lia; exfalso; lra.
Qed.

End BadgeOrder.

Lemma badge_quality_monotone_witness :
  (ComparisonView.quality ComparisonView.yellow
   <= ComparisonView.quality ComparisonView.green)%nat.
Proof.
  assert (H : (8 <= 18)%Q) by discriminate.
  apply (badge_quality_monotone Builtins.parseFloat_plain
           Builtins.Number_toString_plain 1 8 18
           (ComparisonView.mkRating "Average" ComparisonView.yellow)
           (ComparisonView.mkRating "Healthy" ComparisonView.green)
           H eq_refl eq_refl).
  lia.
Defined.

Lemma pe_bands_agree_positive_witness :
  HealthCheck.label (HealthCheck.getPERating (Some (Fin (1499 # 100))))
  = "Looks Cheap"
  /\ ComparisonView.rate_metric Builtins.parseFloat_plain
       Builtins.Number_toString_plain 0 (VNum (Fin (1499 # 100)))
     = Some (ComparisonView.mkRating "Looks Cheap" ComparisonView.green).
Proof.
  apply (pe_bands_agree_positive Builtins.parseFloat_plain
           Builtins.Number_toString_plain (1499 # 100)).
  split; reflexivity.
Defined.

(* ================================================================== *)
(** * Number formatting: units and mantissas *)
(* ================================================================== *)

Section FormatFacts.

Variable toFixed : number -> nat -> string.
Variable toLocaleString : number -> string.



End FormatFacts.


